(** * Organization integration configuration: reconciliation core

    A shallow embedding of the two variants of the
    [organization_integration_configuration] resource
    (the plugin-framework variant in package [provider] and the SDKv2
    variant in package [sentry]) together with the remote client they
    talk to, and the properties of the reconciliation they implement. *)

From Stdlib Require Import String Ascii List Arith Lia Bool.
From stdpp Require Import base strings gmap list option.

Local Open Scope string_scope.
Local Open Scope list_scope.

(** ** Go's [error]: only the message is observable here ([err.Error()]). *)
Definition error := string.

(** ** The client library (package [sentry] of go-sentry) *)
Module sentry.

(** Modelled from the spec: the value type of a configuration document
    (the declaration of [IntegrationConfigData] lives in the client
    library): a leaf is a string or a mapping from strings to strings. *)
Inductive ConfigValue :=
| ConfigString (s : string)
| ConfigMap (m : gmap string string).

#[global] Instance ConfigValue_eq_dec : EqDecision ConfigValue.
Proof. solve_decision. Defined.

Abbreviation IntegrationConfigData := (gmap string ConfigValue).

Record OrganizationIntegrationProvider := { Key : string }.

Record OrganizationIntegration := {
  ID : string;
  Name : string;
  Provider : OrganizationIntegrationProvider;
  ConfigData : IntegrationConfigData
}.

Record ListCursorParams := { Cursor : string }.

Record ListOrganizationIntegrationsParams := {
  listCursorParams : ListCursorParams;
  ProviderKey : string
}.

(** [params.ListCursorParams.Cursor = c] *)
Definition setCursor (params : ListOrganizationIntegrationsParams) (c : string)
  : ListOrganizationIntegrationsParams :=
  {| listCursorParams := {| Cursor := c |}; ProviderKey := ProviderKey params |}.

Module Response.
Record t := { Cursor : string }.
End Response.

(** The two remote operations, over an arbitrary state [R] of the remote
    service.  Each call returns its Go results ([err] or the values) and
    the state the service is left in. *)
Module OrganizationIntegrations.
Record Service (R : Type) := {
  List : R -> string -> ListOrganizationIntegrationsParams ->
         (error + (list OrganizationIntegration * Response.t)) * R;
  UpdateConfig : R -> string -> string -> IntegrationConfigData ->
         (error + OrganizationIntegration) * R
}.
Arguments List {R} _ _ _ _.
Arguments UpdateConfig {R} _ _ _ _ _.
End OrganizationIntegrations.

Abbreviation Client := OrganizationIntegrations.Service.

End sentry.

Import sentry.

(** ** Calls issued against the remote service, in order *)
Inductive Call :=
| CallList (organization : string) (params : ListOrganizationIntegrationsParams)
| CallUpdateConfig (organization integrationID : string) (document : IntegrationConfigData).

Record World (R : Type) := mkWorld { remote : R; calls : list Call }.
Arguments mkWorld {R} _ _.
Arguments remote {R} _.
Arguments calls {R} _.

(** ** Diagnostics (same shape in both host libraries) *)
Inductive Severity := SeverityError | SeverityWarning.

Record Diagnostic := {
  severity : Severity;
  Summary : string;
  Detail : string
}.

Abbreviation Diagnostics := (list Diagnostic).

Definition isError (dg : Diagnostic) : bool :=
  match severity dg with SeverityError => true | SeverityWarning => false end.

Definition HasError (ds : Diagnostics) : bool := existsb isError ds.

Definition AddError (ds : Diagnostics) (summary detail : string) : Diagnostics :=
  ds ++ [ {| severity := SeverityError; Summary := summary; Detail := detail |} ].

(** ** The code shared by both variants: pagination loop and match check *)
Section Core.
Context {R : Type}.
Variable client : Client R.

Definition callList (organization : string) (params : ListOrganizationIntegrationsParams)
           (w : World R)
  : (error + (list OrganizationIntegration * Response.t)) * World R :=
  let '(res, r') := OrganizationIntegrations.List client (remote w) organization params in
  (res, mkWorld r' (calls w ++ [CallList organization params])).

Definition callUpdateConfig (organization integrationID : string)
           (document : IntegrationConfigData) (w : World R)
  : (error + OrganizationIntegration) * World R :=
  let '(res, r') :=
    OrganizationIntegrations.UpdateConfig client (remote w) organization integrationID document in
  (res, mkWorld r' (calls w ++ [CallUpdateConfig organization integrationID document])).

(** [integration.Name == name]: Go compares strings byte by byte. *)
Definition nameIs (name : string) (integration : OrganizationIntegration) : bool :=
  String.eqb (Name integration) name.

(** The inner [for _, integration := range integrations] loop. *)
Fixpoint appendMatches (name : string) (matchedIntegrations : list OrganizationIntegration)
         (integrations : list OrganizationIntegration) : list OrganizationIntegration :=
  match integrations with
  | [] => matchedIntegrations
  | integration :: rest =>
      if nameIs name integration
      then appendMatches name (matchedIntegrations ++ [integration]) rest
      else appendMatches name matchedIntegrations rest
  end.

(** The outer [for { ... }] loop.  It has no bound in the source; [fuel]
    bounds the number of [List] calls and [None] means the bound was
    hit before the service returned an empty cursor. *)
Fixpoint listLoop (fuel : nat) (organization : string)
         (params : ListOrganizationIntegrationsParams) (name : string)
         (matchedIntegrations : list OrganizationIntegration) (w : World R)
  : option ((error + list OrganizationIntegration) * World R) :=
  match fuel with
  | O => None
  | S fuel' =>
      let '(res, w') := callList organization params w in
      match res with
      | inl err => Some (inl err, w')
      | inr (integrations, apiResp) =>
          let matchedIntegrations' := appendMatches name matchedIntegrations integrations in
          if String.eqb (Response.Cursor apiResp) ""
          then Some (inr matchedIntegrations', w')
          else listLoop fuel' organization (setCursor params (Response.Cursor apiResp))
                        name matchedIntegrations' w'
      end
  end.

(** The [len(matchedIntegrations)] test that follows the loop. *)
Inductive MatchOutcome :=
| NotFound
| NotUnique
| Matched (integration : OrganizationIntegration).

Definition checkMatches (matchedIntegrations : list OrganizationIntegration) : MatchOutcome :=
  if Nat.eqb (length matchedIntegrations) 0 then NotFound
  else if Nat.ltb 1 (length matchedIntegrations) then NotUnique
  else match matchedIntegrations with
       | first :: _ => Matched first
       | [] => NotFound
       end.

(** The match step as the code performs it on one sequence of items. *)
Definition matchStep (items : list OrganizationIntegration) (name : string) : MatchOutcome :=
  checkMatches (appendMatches name [] items).

(** *** What the remote service answers during one traversal *)

(** One successful answer of [List]: the items and the next cursor. *)
Record Page := { items : list OrganizationIntegration; next : string }.

(** [Serves organization params r pages r']: asked from [params] on, the
    service in state [r] answers with exactly [pages], every page but the
    last carrying a non-empty cursor that is sent back on the next call,
    the last one carrying the empty cursor; [r'] is its final state. *)
Inductive Serves (organization : string)
  : ListOrganizationIntegrationsParams -> R -> list Page -> R -> Prop :=
| ServesLast params r r' its :
    OrganizationIntegrations.List client r organization params
    = (inr (its, {| Response.Cursor := "" |}), r') ->
    Serves organization params r [ {| items := its; next := "" |} ] r'
| ServesNext params r r' r'' its c pages :
    String.eqb c "" = false ->
    OrganizationIntegrations.List client r organization params
    = (inr (its, {| Response.Cursor := c |}), r') ->
    Serves organization (setCursor params c) r' pages r'' ->
    Serves organization params r ({| items := its; next := c |} :: pages) r''.

(** [FailsAfter organization params r pages err r']: the service answers
    with [pages], all carrying a non-empty cursor, and then fails the
    following [List] call with [err]. *)
Inductive FailsAfter (organization : string)
  : ListOrganizationIntegrationsParams -> R -> list Page -> error -> R -> Prop :=
| FailsNow params r r' err :
    OrganizationIntegrations.List client r organization params = (inl err, r') ->
    FailsAfter organization params r [] err r'
| FailsLater params r r' r'' its c pages err :
    String.eqb c "" = false ->
    OrganizationIntegrations.List client r organization params
    = (inr (its, {| Response.Cursor := c |}), r') ->
    FailsAfter organization (setCursor params c) r' pages err r'' ->
    FailsAfter organization params r ({| items := its; next := c |} :: pages) err r''.

End Core.

(** The [List] calls of a traversal that received [pages]: the first with
    the cursor of [params], each later one with the cursor of the page
    before it. *)
Fixpoint listCalls (organization : string) (params : ListOrganizationIntegrationsParams)
         (pages : list Page) : list Call :=
  match pages with
  | [] => []
  | p :: rest =>
      CallList organization params
      :: listCalls organization (setCursor params (next p)) rest
  end.

(** The parameters of the call that follows the pages [pages]. *)
Fixpoint paramsAfter (params : ListOrganizationIntegrationsParams) (pages : list Page)
  : ListOrganizationIntegrationsParams :=
  match pages with
  | [] => params
  | p :: rest => paramsAfter (setCursor params (next p)) rest
  end.

Definition allItems (pages : list Page) : list OrganizationIntegration :=
  concat (map items pages).

(** ** The decomposition the specification describes *)
Module Spec.
Section Spec.
Context {R : Type}.
Variable client : Client R.

(** Paginator, in the specification's words: start from the given cursor,
    append all returned items to the accumulator, stop on an empty
    next-cursor, otherwise continue from the next-cursor. *)
Fixpoint fetchAll (fuel : nat) (organization : string)
         (params : ListOrganizationIntegrationsParams)
         (acc : list OrganizationIntegration) (w : World R)
  : option ((error + list OrganizationIntegration) * World R) :=
  match fuel with
  | O => None
  | S fuel' =>
      let '(res, w') := callList client organization params w in
      match res with
      | inl err => Some (inl err, w')
      | inr (returned, apiResp) =>
          if String.eqb (Response.Cursor apiResp) ""
          then Some (inr (acc ++ returned), w')
          else fetchAll fuel' organization (setCursor params (Response.Cursor apiResp))
                        (acc ++ returned) w'
      end
  end.

(** Matcher, in the specification's words: filter by exact name equality
    and let [n] be the number of matches. *)
Definition matchByName (all : list OrganizationIntegration) (name : string) : MatchOutcome :=
  match List.filter (nameIs name) all with
  | [] => NotFound
  | [single] => Matched single
  | _ :: _ :: _ => NotUnique
  end.

End Spec.
End Spec.

(** The lookup as the code performs it (filter inside the loop, then the
    length test) and as the specification decomposes it (fetch all, then
    match by name); both report the remote error or the match outcome. *)
Definition lookupInLoop {R : Type} (client : Client R) (fuel : nat) (organization : string)
           (params : ListOrganizationIntegrationsParams) (name : string) (w : World R)
  : option ((error + MatchOutcome) * World R) :=
  match listLoop client fuel organization params name [] w with
  | None => None
  | Some (inl err, w') => Some (inl err, w')
  | Some (inr matchedIntegrations, w') => Some (inr (checkMatches matchedIntegrations), w')
  end.

Definition lookupDecomposed {R : Type} (client : Client R) (fuel : nat) (organization : string)
           (params : ListOrganizationIntegrationsParams) (name : string) (w : World R)
  : option ((error + MatchOutcome) * World R) :=
  match Spec.fetchAll client fuel organization params [] w with
  | None => None
  | Some (inl err, w') => Some (inl err, w')
  | Some (inr all, w') => Some (inr (Spec.matchByName all name), w')
  end.

(** ** Composite identifier codec *)

(** Number of occurrences of the delimiter in a string. *)
Fixpoint occurrences (sep : ascii) (s : string) : nat :=
  match s with
  | EmptyString => 0
  | String c rest =>
      if Ascii.eqb c sep then S (occurrences sep rest) else occurrences sep rest
  end.

(** Splitting on a one-character delimiter, as Go's [strings.Split] does. *)
Fixpoint split (sep : ascii) (s : string) : list string :=
  match s with
  | EmptyString => [EmptyString]
  | String c rest =>
      if Ascii.eqb c sep then EmptyString :: split sep rest
      else match split sep rest with
           | part :: parts => String c part :: parts
           | [] => [String c EmptyString]
           end
  end.

(** Modelled from the spec: [buildThreePartID] is called by the SDKv2
    variant but its body is not part of the sources at hand.  The
    specification's encoder joins the three parts with a fixed delimiter;
    the delimiter itself is left open and is a parameter here. *)
Definition buildThreePartID (sep : ascii) (organization providerKey internalID : string)
  : string :=
  organization +:+ String sep (providerKey +:+ String sep internalID).

Inductive CodecError := MalformedIDError.

(** Modelled from the spec: the decoder, absent from the sources at hand,
    splits on the delimiter and requires exactly three resulting parts. *)
Definition decode (sep : ascii) (id : string) : CodecError + (string * string * string) :=
  match split sep id with
  | [organization; providerKey; internalID] => inr (organization, providerKey, internalID)
  | _ => inl MalformedIDError
  end.

(** ** The plugin-framework variant (package [provider]) *)

(** The framework's attribute values: null, unknown or known. *)
Module types.
Inductive String := StringNull | StringUnknown | StringValue (s : string).
Inductive Bool := BoolNull | BoolUnknown | BoolValue (b : bool).

(** [ValueString] is the empty string for null and unknown values. *)
Definition ValueString (v : String) : string :=
  match v with
  | StringValue s => s
  | StringNull | StringUnknown => ""
  end.
End types.

Module provider.

Record organizationIntegrationConfigurationResourceModel := {
  Id : types.String;
  Organization : types.String;
  ProviderKey : types.String;
  IsFragment : types.Bool;
  Name : types.String;
  ConfigData : types.String
}.

Abbreviation Model := organizationIntegrationConfigurationResourceModel.

(** [Fill] overwrites every field but [IsFragment] and returns [nil]. *)
Definition Fill (r : Model) (organizationSlug : string) (configData : string)
           (d : OrganizationIntegration) : option error * Model :=
  (None,
   {| Id := types.StringValue (sentry.ID d);
      Organization := types.StringValue organizationSlug;
      ProviderKey := types.StringValue (sentry.Key (sentry.Provider d));
      IsFragment := IsFragment r;
      Name := types.StringValue (sentry.Name d);
      ConfigData := types.StringValue configData |}).

Section Resource.
Context {R : Type}.
Variable client : Client R.

(** The host framework and [encoding/json] are outside the sources at
    hand; the resource is parameterised by them.  [State] and [Plan] are
    the framework's containers, [State_Get]/[Plan_Get] decode one into the
    model struct (with diagnostics), [State_Set] encodes the struct back. *)
Context {State Plan : Type}.
Variable State_Get : State -> Diagnostics * Model.
Variable Plan_Get : Plan -> Diagnostics * Model.
Variable State_Set : State -> Model -> Diagnostics * State.
Variable json_Marshal : IntegrationConfigData -> error + string.
Variable json_Unmarshal : string -> error + IntegrationConfigData.

Record ReadRequest := { ReadRequest_State : State }.

Record ReadResponse := {
  ReadResponse_State : State;
  ReadResponse_Diagnostics : Diagnostics
}.

Record CreateRequest := { CreateRequest_Plan : Plan }.

Record CreateResponse := {
  CreateResponse_State : State;
  CreateResponse_Diagnostics : Diagnostics
}.

Definition readDiagnostics (resp : ReadResponse) (ds : Diagnostics) : ReadResponse :=
  {| ReadResponse_State := ReadResponse_State resp; ReadResponse_Diagnostics := ds |}.

Definition createDiagnostics (resp : CreateResponse) (ds : Diagnostics) : CreateResponse :=
  {| CreateResponse_State := CreateResponse_State resp; CreateResponse_Diagnostics := ds |}.

(** What [Read] does once the loop has left [matchedIntegrations]. *)
Definition readMatched (data : Model) (resp : ReadResponse)
           (matchedIntegrations : list OrganizationIntegration) : ReadResponse :=
  match checkMatches matchedIntegrations with
  | NotFound =>
      readDiagnostics resp
        (AddError (ReadResponse_Diagnostics resp)
                  "Not Found" "No matching organization integrations found")
  | NotUnique =>
      readDiagnostics resp
        (AddError (ReadResponse_Diagnostics resp)
                  "Not Unique" "More than one matching organization integration found")
  | Matched first =>
      match json_Marshal (sentry.ConfigData first) with
      | inl err =>
          readDiagnostics resp
            (AddError (ReadResponse_Diagnostics resp) "Conversion Error"
                      ("Failed to convert ConfigData to JSON: " +:+ err))
      | inr configData =>
          let '(err, _) :=
            Fill data (types.ValueString (Organization data)) configData first in
          match err with
          | Some e =>
              readDiagnostics resp
                (AddError (ReadResponse_Diagnostics resp) "Client Error"
                          ("Error filling organization integration: " +:+ e))
          | None => resp
          end
      end
  end.

(** [Read]: the response is the one handed in, with [State] as the
    framework prepared it unless the code assigns it. *)
Definition Read (fuel : nat) (req : ReadRequest) (resp : ReadResponse) (w : World R)
  : option (ReadResponse * World R) :=
  let '(diags, data) := State_Get (ReadRequest_State req) in
  let resp := readDiagnostics resp (ReadResponse_Diagnostics resp ++ diags) in
  if HasError (ReadResponse_Diagnostics resp) then Some (resp, w)
  else
    let params := {| listCursorParams := {| Cursor := "" |};
                     sentry.ProviderKey := types.ValueString (ProviderKey data) |} in
    match listLoop client fuel (types.ValueString (Organization data)) params
                   (types.ValueString (Name data)) [] w with
    | None => None
    | Some (inl err, w') =>
        Some (readDiagnostics resp
                (AddError (ReadResponse_Diagnostics resp) "Client Error"
                   ("Unable to read organization integrations, got error: " +:+ err)),
              w')
    | Some (inr matchedIntegrations, w') =>
        Some (readMatched data resp matchedIntegrations, w')
    end.

(** [Create]: decode the plan, deserialise the document, update. *)
Definition Create (req : CreateRequest) (resp : CreateResponse) (w : World R)
  : CreateResponse * World R :=
  let '(diags, data) := Plan_Get (CreateRequest_Plan req) in
  let resp := createDiagnostics resp (CreateResponse_Diagnostics resp ++ diags) in
  if HasError (CreateResponse_Diagnostics resp) then (resp, w)
  else
    match json_Unmarshal (types.ValueString (ConfigData data)) with
    | inl err =>
        (createDiagnostics resp
           (AddError (CreateResponse_Diagnostics resp) "Conversion Error"
                     ("Failed to convert ConfigData to JSON: " +:+ err)),
         w)
    | inr configData =>
        let '(res, w') :=
          callUpdateConfig client (types.ValueString (Organization data))
                           (types.ValueString (Id data)) configData w in
        match res with
        | inl err =>
            (createDiagnostics resp
               (AddError (CreateResponse_Diagnostics resp) "Client Error"
                  ("Unable to create organization integration, got error: " +:+ err)),
             w')
        | inr _ =>
            let '(_, st) := State_Set (CreateResponse_State resp) data in
            ({| CreateResponse_State := st;
                CreateResponse_Diagnostics := CreateResponse_Diagnostics resp |}, w')
        end
    end.

End Resource.

(** *** Construction, configuration and naming of the resource *)
Section Lifecycle.
Context {R : Type}.

Record organizationIntegrationConfigurationResource := {
  client : option (Client R)
}.

Definition NewOrganizationIntegrationConfigurationResource
  : organizationIntegrationConfigurationResource :=
  {| client := None |}.

(** [req.ProviderData]: [nil], a client, or a value of another type, of
    which only the name printed by [%T] matters. *)
Inductive ProviderData :=
| ProviderNil
| ProviderClient (c : Client R)
| ProviderOther (typeName : string).

Definition Configure (r : organizationIntegrationConfigurationResource)
           (providerData : ProviderData) (diagnostics : Diagnostics)
  : organizationIntegrationConfigurationResource * Diagnostics :=
  match providerData with
  | ProviderNil => (r, diagnostics)
  | ProviderOther typeName =>
      (r, AddError diagnostics "Unexpected Resource Configure Type"
                   ("Expected *sentry.Client, got: " +:+ typeName +:+
                    ". Please report this issue to the provider developers."))
  | ProviderClient c => ({| client := Some c |}, diagnostics)
  end.

End Lifecycle.

(** [Metadata]: the resource's type name. *)
Definition Metadata (providerTypeName : string) : string :=
  providerTypeName +:+ "_organization_integration_configuration".

(** The [tfsdk] tags of the model struct, in field order, and the
    attribute names [Schema] declares. *)
Definition modelTags : list string :=
  ["id"; "organization"; "provider_key"; "is_fragment"; "name"; "configData"].

Definition schemaAttributes : list string :=
  ["id"; "organization"; "provider_key"; "name"; "is_fragment"; "config"].

End provider.

(** ** The SDKv2 variant (package [sentry] of the provider) *)
Module legacy.

(** Attribute values held by [schema.ResourceData]: the resource's schema
    declares string attributes and one map attribute. *)
Inductive Value :=
| VString (s : string)
| VMap (m : IntegrationConfigData).

Record ResourceData := {
  Id : string;
  attributes : gmap string Value
}.

(** [d.Get(key).(string)]; an attribute that was never set reads as the
    zero value. *)
Definition GetString (d : ResourceData) (key : string) : string :=
  match attributes d !! key with
  | Some (VString s) => s
  | _ => ""
  end.

(** [d.Get(key).(sentry.IntegrationConfigData)] *)
Definition GetConfig (d : ResourceData) (key : string) : IntegrationConfigData :=
  match attributes d !! key with
  | Some (VMap m) => m
  | _ => ∅
  end.

Definition SetId (d : ResourceData) (id : string) : ResourceData :=
  {| Id := id; attributes := attributes d |}.

(** [diag.FromErr] *)
Definition FromErr (err : option error) : Diagnostics :=
  match err with
  | None => []
  | Some e => [ {| severity := SeverityError; Summary := e; Detail := "" |} ]
  end.

(** [multierror.Append(errs...)] keeps the non-nil errors, in order. *)
Definition multierror_Append (errs : list (option error)) : list error :=
  omap id errs.

Section Resource.
Context {R : Type}.
Variable client : Client R.

(** Outside the sources at hand: the identifier delimiter [sep], the
    formatting of [%q] ([Quote]), the message of a multi-error
    ([ListFormatFunc]) and the field writer's verdict on a [d.Set]
    ([setError]: [None] when the write is accepted). *)
Variable sep : ascii.
Variable Quote : string -> string.
Variable ListFormatFunc : list error -> string.
Variable setError : string -> Value -> option error.

(** [d.Set(key, value)]: an accepted write stores the value. *)
Definition ResourceData_Set (d : ResourceData) (key : string) (value : Value)
  : option error * ResourceData :=
  match setError key value with
  | Some e => (Some e, d)
  | None => (None, {| Id := Id d; attributes := <[key := value]> (attributes d) |})
  end.

(** [ErrorOrNil] of a multi-error: [nil] when nothing was collected. *)
Definition ErrorOrNil (errs : list error) : option error :=
  match errs with
  | [] => None
  | _ :: _ => Some (ListFormatFunc errs)
  end.

(** [diag.Errorf(format, name)] for the two formats ending in [%q]. *)
Definition Errorf (prefix : string) (name : string) : Diagnostics :=
  [ {| severity := SeverityError; Summary := prefix +:+ Quote name; Detail := "" |} ].

(** What [Read] does once the loop has left [matchedIntegrations]. *)
Definition readMatched (d : ResourceData) (internal_id organization providerKey name : string)
           (matchedIntegrations : list OrganizationIntegration)
  : Diagnostics * ResourceData :=
  match checkMatches matchedIntegrations with
  | NotFound =>
      (Errorf "no matching organization integration configurations found with name " name, d)
  | NotUnique =>
      (Errorf "found multiple matching organization integration configurations with name " name,
       d)
  | Matched first =>
      let d := SetId d (buildThreePartID sep organization providerKey internal_id) in
      let '(e1, d) := ResourceData_Set d "organization" (VString organization) in
      let '(e2, d) := ResourceData_Set d "provider_key" (VString providerKey) in
      let '(e3, d) := ResourceData_Set d "name" (VString name) in
      let '(e4, d) := ResourceData_Set d "config" (VMap (sentry.ConfigData first)) in
      let retErr := multierror_Append [e1; e2; e3; e4] in
      (FromErr (ErrorOrNil retErr), d)
  end.

Definition resourceSentryOrganizationIntegrationConfigurationRead
           (fuel : nat) (d : ResourceData) (w : World R)
  : option (Diagnostics * ResourceData * World R) :=
  let internal_id := GetString d "internal_id" in
  let organization := GetString d "organization" in
  let providerKey := GetString d "provider_key" in
  let name := GetString d "name" in
  let params := {| listCursorParams := {| Cursor := "" |};
                   ProviderKey := providerKey |} in
  match listLoop client fuel organization params name [] w with
  | None => None
  | Some (inl err, w') =>
      Some (FromErr (Some ("unable to read organization integration configurations: " +:+ err)),
            d, w')
  | Some (inr matchedIntegrations, w') =>
      Some (readMatched d internal_id organization providerKey name matchedIntegrations, w')
  end.

Definition resourceSentryOrganizationIntegrationConfigurationUpdate
           (fuel : nat) (d : ResourceData) (w : World R)
  : option (Diagnostics * ResourceData * World R) :=
  let organization := GetString d "organization" in
  let config := GetConfig d "config" in
  let '(res, w') := callUpdateConfig client organization (Id d) config w in
  match res with
  | inl err =>
      Some (FromErr (Some ("unable to update organization integration configuration: " +:+ err)),
            d, w')
  | inr _ =>
      let d := SetId d (Id d) in
      resourceSentryOrganizationIntegrationConfigurationRead fuel d w'
  end.

Definition resourceSentryOrganizationIntegrationConfigurationDelete
           (d : ResourceData) (w : World R)
  : Diagnostics * ResourceData * World R :=
  let organization := GetString d "organization" in
  let '(res, w') := callUpdateConfig client organization (Id d) ∅ w in
  match res with
  | inl err =>
      (FromErr (Some ("unable to delete organization integration configuration: " +:+ err)),
       d, w')
  | inr _ => ([], SetId d "", w')
  end.

End Resource.

(** *** The schema the resource declares *)
Inductive ValueType := TypeString | TypeMap.

Record Schema := {
  Type_ : ValueType;
  Required : bool;
  Computed : bool
}.

Definition resourceSchema : list (string * Schema) :=
  [ ("organization", {| Type_ := TypeString; Required := true; Computed := false |});
    ("provider_key", {| Type_ := TypeString; Required := true; Computed := false |});
    ("name", {| Type_ := TypeString; Required := true; Computed := false |});
    ("config", {| Type_ := TypeMap; Required := true; Computed := false |});
    ("internal_id", {| Type_ := TypeString; Required := false; Computed := true |}) ].

Fixpoint lookupSchema (key : string) (schema : list (string * Schema)) : option Schema :=
  match schema with
  | [] => None
  | (k, s) :: rest => if String.eqb k key then Some s else lookupSchema key rest
  end.

(** A write fits the schema when the attribute is declared and the value
    is of the declared kind. *)
Definition fitsSchema (key : string) (value : Value) : bool :=
  match lookupSchema key resourceSchema, value with
  | Some {| Type_ := TypeString |}, VString _ => true
  | Some {| Type_ := TypeMap |}, VMap _ => true
  | _, _ => false
  end.

End legacy.

(** ** A small simulated service and host, for running the code *)
Module Sim.

(** The service files each answer of [List] under the cursor that asks
    for it. *)
Record Shelf := { cursor : string; answer : error + Page }.

Abbreviation Remote := (list Shelf).

Fixpoint answerAt (c : string) (r : Remote) : option (error + Page) :=
  match r with
  | [] => None
  | shelf :: rest => if String.eqb (cursor shelf) c then Some (answer shelf) else answerAt c rest
  end.

(** The provider-key filter the service applies at the source. *)
Definition providerIs (key : string) (integration : OrganizationIntegration) : bool :=
  String.eqb (Key (Provider integration)) key.

Definition List (r : Remote) (organization : string)
           (params : ListOrganizationIntegrationsParams)
  : (error + (list OrganizationIntegration * Response.t)) * Remote :=
  match answerAt (Cursor (listCursorParams params)) r with
  | None => (inl "invalid cursor", r)
  | Some (inl err) => (inl err, r)
  | Some (inr page) =>
      (inr (List.filter (providerIs (ProviderKey params)) (items page),
            {| Response.Cursor := next page |}), r)
  end.

Definition withConfig (document : IntegrationConfigData) (integration : OrganizationIntegration)
  : OrganizationIntegration :=
  {| ID := ID integration; Name := Name integration; Provider := Provider integration;
     ConfigData := document |}.

Definition rewrite (integrationID : string) (document : IntegrationConfigData)
           (integration : OrganizationIntegration) : OrganizationIntegration :=
  if String.eqb (ID integration) integrationID then withConfig document integration
  else integration.

Definition rewriteShelf (integrationID : string) (document : IntegrationConfigData)
           (shelf : Shelf) : Shelf :=
  {| cursor := cursor shelf;
     answer := match answer shelf with
               | inl err => inl err
               | inr page => inr {| items := map (rewrite integrationID document) (items page);
                                    next := next page |}
               end |}.

Definition stored (r : Remote) : list OrganizationIntegration :=
  flat_map (fun shelf => match answer shelf with
                         | inl _ => []
                         | inr page => items page
                         end) r.

Definition UpdateConfig (r : Remote) (organization integrationID : string)
           (document : IntegrationConfigData)
  : (error + OrganizationIntegration) * Remote :=
  match List.find (fun integration => String.eqb (ID integration) integrationID) (stored r) with
  | None => (inl "404 Not Found", r)
  | Some integration =>
      (inr (withConfig document integration), map (rewriteShelf integrationID document) r)
  end.

Definition client : Client Remote :=
  {| OrganizationIntegrations.List := List;
     OrganizationIntegrations.UpdateConfig := UpdateConfig |}.

Definition start (r : Remote) : World Remote := mkWorld r [].

(** Documents and integrations used below. *)
Definition doc (entries : list (string * string)) : IntegrationConfigData :=
  list_to_map (map (fun '(k, v) => (k, ConfigString v)) entries).

Definition integration (id name : string) (document : IntegrationConfigData)
  : OrganizationIntegration :=
  {| ID := id; Name := name; Provider := {| Key := "slack" |}; ConfigData := document |}.

Definition remoteDocument : IntegrationConfigData := doc [("a", "1"); ("b", "2")].
Definition desiredDocument : IntegrationConfigData := doc [("b", "3"); ("c", "4")].
Definition mergedDocument : IntegrationConfigData := doc [("a", "1"); ("b", "3"); ("c", "4")].

(** One page holding one integration named X with the document
    [{a:1, b:2}]. *)
Definition singleRemote : Remote :=
  [ {| cursor := "";
       answer := inr {| items := [integration "42" "X" remoteDocument]; next := "" |} |} ].

(** Two pages: X and Y under the empty cursor, Z under cursor c2. *)
Definition itemX := integration "1" "X" ∅.
Definition itemY := integration "2" "Y" ∅.
Definition itemZ := integration "3" "Z" ∅.

Definition twoPages : Remote :=
  [ {| cursor := ""; answer := inr {| items := [itemX; itemY]; next := "c2" |} |};
    {| cursor := "c2"; answer := inr {| items := [itemZ]; next := "" |} |} ].

(** Three pages of which the second one fails. *)
Definition brokenSecondPage : Remote :=
  [ {| cursor := ""; answer := inr {| items := [itemX; itemY]; next := "c2" |} |};
    {| cursor := "c2"; answer := inl "502 Bad Gateway" |};
    {| cursor := "c3"; answer := inr {| items := [itemZ]; next := "" |} |} ].

Definition slackParams : ListOrganizationIntegrationsParams :=
  {| listCursorParams := {| Cursor := "" |}; ProviderKey := "slack" |}.

(** A host for the framework variant: state and plan hold the model as
    it is, and documents are serialised through a fixed table (braces and
    colons only, a stand-in for JSON text). *)
Definition documents : list (string * IntegrationConfigData) :=
  [ ("{}", ∅);
    ("{a:1,b:2}", remoteDocument);
    ("{b:3,c:4}", desiredDocument);
    ("{a:1,b:3,c:4}", mergedDocument) ].

Definition json_Unmarshal (text : string) : error + IntegrationConfigData :=
  match List.find (fun entry => String.eqb (fst entry) text) documents with
  | Some entry => inr (snd entry)
  | None => inl "invalid character"
  end.

Definition json_Marshal (m : IntegrationConfigData) : error + string :=
  match List.find (fun entry => bool_decide (snd entry = m)) documents with
  | Some entry => inr (fst entry)
  | None => inl "unsupported value"
  end.

Definition State_Get (s : provider.Model) : Diagnostics * provider.Model := ([], s).
Definition Plan_Get (p : provider.Model) : Diagnostics * provider.Model := ([], p).
Definition State_Set (s m : provider.Model) : Diagnostics * provider.Model := ([], m).

Definition model (id : types.String) (isFragment : bool) (configData : string)
  : provider.Model :=
  {| provider.Id := id;
     provider.Organization := types.StringValue "acme";
     provider.ProviderKey := types.StringValue "slack";
     provider.IsFragment := types.BoolValue isFragment;
     provider.Name := types.StringValue "X";
     provider.ConfigData := types.StringValue configData |}.

(** The state of a resource whose document is still empty. *)
Definition priorState : provider.Model := model (types.StringValue "1") false "{}".

Definition Create (req : provider.CreateRequest) (resp : provider.CreateResponse)
           (w : World Remote) :=
  provider.Create client Plan_Get State_Set json_Unmarshal req resp w.

Definition Read (fuel : nat) (req : provider.ReadRequest) (resp : provider.ReadResponse)
           (w : World Remote) :=
  provider.Read client State_Get json_Marshal fuel req resp w.

(** A host for the SDKv2 variant: slash as delimiter, every write
    accepted. *)
Definition Quote (s : string) : string := "'" +:+ s +:+ "'".
Definition ListFormatFunc (errs : list error) : string :=
  fold_right (fun e acc => e +:+ "; " +:+ acc) "" errs.
Definition setError (key : string) (value : legacy.Value) : option error := None.

Definition legacyRead :=
  legacy.resourceSentryOrganizationIntegrationConfigurationRead
    client "/"%char Quote ListFormatFunc setError.

Definition legacyUpdate :=
  legacy.resourceSentryOrganizationIntegrationConfigurationUpdate
    client "/"%char Quote ListFormatFunc setError.

Definition legacyDelete :=
  legacy.resourceSentryOrganizationIntegrationConfigurationDelete client.

(** A resource as it stands before its first read: the identity is set,
    [internal_id] was never assigned. *)
Definition declared (name : string) : legacy.ResourceData :=
  {| legacy.Id := "";
     legacy.attributes :=
       list_to_map [ ("organization", legacy.VString "acme");
                     ("provider_key", legacy.VString "slack");
                     ("name", legacy.VString name);
                     ("config", legacy.VMap desiredDocument) ] |}.

(** A service that never runs out of pages: every answer carries the
    cursor it was asked with, extended by one character. *)
Definition endlessList (r : unit) (organization : string)
           (params : ListOrganizationIntegrationsParams)
  : (error + (list OrganizationIntegration * Response.t)) * unit :=
  (inr ([itemX], {| Response.Cursor := String "n" (Cursor (listCursorParams params)) |}), r).

Definition endlessClient : Client unit :=
  {| OrganizationIntegrations.List := endlessList;
     OrganizationIntegrations.UpdateConfig :=
       fun r organization integrationID document => (inl "404 Not Found", r) |}.

(** A field writer that follows the declared schema. *)
Definition schemaSetError (key : string) (value : legacy.Value) : option error :=
  if legacy.fitsSchema key value then None else Some ("Invalid address to set: " +:+ key).

(** A field writer that refuses the map attribute only. *)
Definition refuseConfig (key : string) (value : legacy.Value) : option error :=
  if String.eqb key "config" then Some "config: unconvertible type" else None.

(** Requests and responses of the framework variant, and a resource of
    the SDKv2 variant whose identifier is the integration's own. *)
Definition readRequest : provider.ReadRequest :=
  {| provider.ReadRequest_State := priorState |}.

Definition readResponse (diagnostics : Diagnostics) : provider.ReadResponse :=
  {| provider.ReadResponse_State := priorState;
     provider.ReadResponse_Diagnostics := diagnostics |}.

Definition createRequest (id : types.String) (text : string) : provider.CreateRequest :=
  {| provider.CreateRequest_Plan := model id false text |}.

Definition createResponse : provider.CreateResponse :=
  {| provider.CreateResponse_State := model types.StringUnknown false "";
     provider.CreateResponse_Diagnostics := [] |}.

(** The resource as the read of [declared "X"] against [singleRemote]
    leaves it. *)
Definition afterRead : legacy.ResourceData :=
  match legacyRead 1 (declared "X") (start singleRemote) with
  | Some (_, d', _) => d'
  | None => declared "X"
  end.

Definition imported : legacy.ResourceData :=
  {| legacy.Id := "42"; legacy.attributes := legacy.attributes (declared "X") |}.

End Sim.

(** ** Predicates on calls and diagnostics used in the statements *)

(** A [List] call for the given organization and provider key. *)
Definition listCallFor (organization providerKey : string) (c : Call) : bool :=
  match c with
  | CallList o params => String.eqb o organization && String.eqb (ProviderKey params) providerKey
  | CallUpdateConfig _ _ _ => false
  end.

(** The summaries under which the framework variant's read reports. *)
Definition readSummaries : list string :=
  ["Client Error"; "Not Found"; "Not Unique"; "Conversion Error"].

Definition readDiagnostic (dg : Diagnostic) : bool :=
  isError dg && existsb (String.eqb (Summary dg)) readSummaries.

(** * Properties *)

(** ** The inner loop is a filter *)

Lemma nameIs_spec (name : string) (integration : OrganizationIntegration) :
  nameIs name integration = true <-> Name integration = name.
Proof. unfold nameIs. apply String.eqb_eq. Qed.

Lemma appendMatches_filter (name : string) (integrations acc : list OrganizationIntegration) :
  appendMatches name acc integrations = acc ++ List.filter (nameIs name) integrations.
Proof.
  revert acc. induction integrations as [|i rest IH]; intros acc; simpl.
  - by rewrite app_nil_r.
  - destruct (nameIs name i); rewrite IH; [|done].
    by rewrite <- app_assoc.
Qed.

Lemma filter_nameIs_decide (name : string) (l : list OrganizationIntegration) :
  List.filter (nameIs name) l = filter (fun i => Name i = name) l.
Proof.
  induction l as [|i rest IH]; [done|].
  simpl. rewrite filter_cons. rewrite IH.
  destruct (decide (Name i = name)) as [Heq|Hne].
  - apply nameIs_spec in Heq. by rewrite Heq.
  - destruct (nameIs name i) eqn:E; [|done].
    apply nameIs_spec in E. contradiction.
Qed.

Lemma checkMatches_cases (matched : list OrganizationIntegration) :
  checkMatches matched =
  match matched with
  | [] => NotFound
  | [single] => Matched single
  | _ :: _ :: _ => NotUnique
  end.
Proof. destruct matched as [|a [|b rest]]; reflexivity. Qed.


(** ** The pagination loop *)
Section Pagination.
Context {R : Type}.
Variable client : Client R.

Lemma listLoop_step (fuel : nat) (organization : string)
      (params : ListOrganizationIntegrationsParams) (name : string)
      (acc : list OrganizationIntegration) (r : R) (log : list Call) :
  listLoop client (S fuel) organization params name acc (mkWorld r log) =
  match OrganizationIntegrations.List client r organization params with
  | (inl err, r') => Some (inl err, mkWorld r' (log ++ [CallList organization params]))
  | (inr (its, apiResp), r') =>
      if String.eqb (Response.Cursor apiResp) ""
      then Some (inr (appendMatches name acc its),
                 mkWorld r' (log ++ [CallList organization params]))
      else listLoop client fuel organization (setCursor params (Response.Cursor apiResp))
                    name (appendMatches name acc its)
                    (mkWorld r' (log ++ [CallList organization params]))
  end.
Proof.
  simpl. unfold callList. simpl.
  destruct (OrganizationIntegrations.List client r organization params) as [[err|[its apiResp]] r'];
    reflexivity.
Qed.

(** With an accumulator: the pages served are visited once each, in
    order, and what is appended is the matching part of their items. *)
Lemma listLoop_serves (organization : string) (name : string)
      (params : ListOrganizationIntegrationsParams) (r r' : R) (pages : list Page) :
  Serves client organization params r pages r' ->
  forall (fuel : nat) (acc : list OrganizationIntegration) (log : list Call),
    length pages <= fuel ->
    listLoop client fuel organization params name acc (mkWorld r log) =
    Some (inr (acc ++ List.filter (nameIs name) (allItems pages)),
          mkWorld r' (log ++ listCalls organization params pages)).
Proof.
  induction 1 as [params r r' its Hlist | params r r' r'' its c pages Hc Hlist Hrest IH];
    intros fuel acc log Hfuel.
  - destruct fuel as [|fuel]; [simpl in Hfuel; lia|].
    rewrite listLoop_step, Hlist. simpl.
    rewrite appendMatches_filter. unfold allItems. simpl. by rewrite app_nil_r.
  - destruct fuel as [|fuel]; [simpl in Hfuel; lia|].
    rewrite listLoop_step, Hlist. simpl. rewrite Hc.
    rewrite IH by (simpl in Hfuel; lia).
    rewrite appendMatches_filter. unfold allItems. simpl.
    rewrite List.filter_app, <- !app_assoc. reflexivity.
Qed.

(** A failing call ends the loop with the error, whatever was appended
    before. *)
Lemma listLoop_fails (organization : string) (name : string)
      (params : ListOrganizationIntegrationsParams) (r r' : R) (pages : list Page)
      (err : error) :
  FailsAfter client organization params r pages err r' ->
  forall (fuel : nat) (acc : list OrganizationIntegration) (log : list Call),
    length pages < fuel ->
    listLoop client fuel organization params name acc (mkWorld r log) =
    Some (inl err,
          mkWorld r' (log ++ listCalls organization params pages
                          ++ [CallList organization (paramsAfter params pages)])).
Proof.
  induction 1 as [params r r' err Hlist | params r r' r'' its c pages err Hc Hlist Hrest IH];
    intros fuel acc log Hfuel.
  - destruct fuel as [|fuel]; [simpl in Hfuel; lia|].
    rewrite listLoop_step, Hlist. reflexivity.
  - destruct fuel as [|fuel]; [simpl in Hfuel; lia|].
    rewrite listLoop_step, Hlist. simpl. rewrite Hc.
    rewrite IH by (simpl in Hfuel; lia).
    by rewrite <- !app_assoc.
Qed.

(** The accumulator of the specification's paginator and the one of the
    code stay related by the name filter, call after call. *)
Lemma listLoop_fetchAll (name : string) (fuel : nat) :
  forall (organization : string) (params : ListOrganizationIntegrationsParams)
         (all : list OrganizationIntegration) (w : World R),
    listLoop client fuel organization params name (List.filter (nameIs name) all) w =
    match Spec.fetchAll client fuel organization params all w with
    | None => None
    | Some (inl err, w') => Some (inl err, w')
    | Some (inr fetched, w') => Some (inr (List.filter (nameIs name) fetched), w')
    end.
Proof.
  induction fuel as [|fuel IH]; intros organization params all w; [reflexivity|].
  simpl. destruct (callList client organization params w) as [[err|[its apiResp]] w'];
    [reflexivity|].
  rewrite appendMatches_filter, <- List.filter_app.
  destruct (String.eqb (Response.Cursor apiResp) ""); [reflexivity|].
  apply IH.
Qed.

End Pagination.

(** C3 (amended). For any sequence of pages served from the empty cursor
    on and ending with an empty next-cursor, the loop makes one [List]
    call per page, the first with the empty cursor and each later one with
    the cursor just returned, and accumulates, in per-page order and once
    each, the items of the concatenated pages whose name is the requested
    one. *)
Theorem C3_pagination_accumulates_matches {R : Type} (client : Client R)
        (organization providerKey name : string) (r r' : R) (pages : list Page)
        (fuel : nat) (log : list Call) :
  let params := {| listCursorParams := {| Cursor := "" |}; ProviderKey := providerKey |} in
  Serves client organization params r pages r' ->
  length pages <= fuel ->
  listLoop client fuel organization params name [] (mkWorld r log) =
  Some (inr (List.filter (nameIs name) (allItems pages)),
        mkWorld r' (log ++ listCalls organization params pages)).
Proof.
  intros params Hserves Hfuel.
  apply (listLoop_serves client organization name params r r' pages Hserves fuel [] log Hfuel).
Qed.

(** C10. Filtering each page inside the loop and testing the number of
    accumulated matches gives what fetching everything and then matching
    by name gives: the same item, the same zero/multiple-match outcome,
    the same remote error, and the same calls. *)
Theorem C10_loop_filter_refines_decomposition {R : Type} (client : Client R)
        (fuel : nat) (organization : string) (params : ListOrganizationIntegrationsParams)
        (name : string) (w : World R) :
  lookupInLoop client fuel organization params name w =
  lookupDecomposed client fuel organization params name w.
Proof.
  unfold lookupInLoop, lookupDecomposed.
  pose proof (listLoop_fetchAll client name fuel organization params [] w) as H.
  simpl in H. rewrite H.
  destruct (Spec.fetchAll client fuel organization params [] w) as [[[err|all] w']|];
    try reflexivity.
  rewrite checkMatches_cases. unfold Spec.matchByName.
  destruct (List.filter (nameIs name) all) as [|a [|b rest]]; reflexivity.
Qed.

(** ** Read: a failed page fails the invocation *)

Lemma legacy_read_fails {R : Type} (client : Client R) (sep : ascii)
      (Quote : string -> string) (ListFormatFunc : list error -> string)
      (setError : string -> legacy.Value -> option error)
      (d : legacy.ResourceData) (fuel : nat) (r r' : R) (pages : list Page)
      (err : error) (log : list Call) :
  let organization := legacy.GetString d "organization" in
  let params := {| listCursorParams := {| Cursor := "" |};
                   ProviderKey := legacy.GetString d "provider_key" |} in
  FailsAfter client organization params r pages err r' ->
  length pages < fuel ->
  legacy.resourceSentryOrganizationIntegrationConfigurationRead
    client sep Quote ListFormatFunc setError fuel d (mkWorld r log) =
  Some (legacy.FromErr
          (Some ("unable to read organization integration configurations: " +:+ err)),
        d,
        mkWorld r' (log ++ listCalls organization params pages
                        ++ [CallList organization (paramsAfter params pages)])).
Proof.
  intros organization params Hfails Hfuel.
  unfold legacy.resourceSentryOrganizationIntegrationConfigurationRead.
  fold organization. fold params.
  by rewrite (listLoop_fails client organization _ params r r' pages err Hfails fuel [] log Hfuel).
Qed.

Lemma provider_read_fails {R State : Type} (client : Client R)
      (State_Get : State -> Diagnostics * provider.Model)
      (json_Marshal : IntegrationConfigData -> error + string)
      (req : provider.ReadRequest) (resp : provider.ReadResponse)
      (diags : Diagnostics) (data : provider.Model)
      (fuel : nat) (r r' : R) (pages : list Page) (err : error) (log : list Call) :
  let organization := types.ValueString (provider.Organization data) in
  let params := {| listCursorParams := {| Cursor := "" |};
                   ProviderKey := types.ValueString (provider.ProviderKey data) |} in
  State_Get (provider.ReadRequest_State req) = (diags, data) ->
  HasError (provider.ReadResponse_Diagnostics resp ++ diags) = false ->
  FailsAfter client organization params r pages err r' ->
  length pages < fuel ->
  provider.Read client State_Get json_Marshal fuel req resp (mkWorld r log) =
  Some ({| provider.ReadResponse_State := provider.ReadResponse_State resp;
           provider.ReadResponse_Diagnostics :=
             AddError (provider.ReadResponse_Diagnostics resp ++ diags) "Client Error"
                      ("Unable to read organization integrations, got error: " +:+ err) |},
        mkWorld r' (log ++ listCalls organization params pages
                        ++ [CallList organization (paramsAfter params pages)])).
Proof.
  intros organization params Hget Hok Hfails Hfuel.
  unfold provider.Read. rewrite Hget. simpl. rewrite Hok.
  fold organization. fold params.
  by rewrite (listLoop_fails client organization _ params r r' pages err Hfails fuel [] log Hfuel).
Qed.

(** C7. When a [List] call fails after some pages were already received,
    the read fails as a whole with the remote error (in both variants):
    the outcome is the error diagnostic alone, the resource is left as it
    was, and nothing of the pages received so far reaches the match
    test. *)
Theorem C7_failed_page_fails_read {R : Type} (client : Client R)
        (organization providerKey : string)
        (fuel : nat) (r r' : R) (pages : list Page) (err : error) (log : list Call) :
  let params := {| listCursorParams := {| Cursor := "" |}; ProviderKey := providerKey |} in
  let w' := mkWorld r' (log ++ listCalls organization params pages
                            ++ [CallList organization (paramsAfter params pages)]) in
  FailsAfter client organization params r pages err r' ->
  length pages < fuel ->
  (forall sep Quote ListFormatFunc setError (d : legacy.ResourceData),
      legacy.GetString d "organization" = organization ->
      legacy.GetString d "provider_key" = providerKey ->
      legacy.resourceSentryOrganizationIntegrationConfigurationRead
        client sep Quote ListFormatFunc setError fuel d (mkWorld r log) =
      Some (legacy.FromErr
              (Some ("unable to read organization integration configurations: " +:+ err)),
            d, w'))
  /\
  (forall (State : Type) (State_Get : State -> Diagnostics * provider.Model) json_Marshal
          (req : provider.ReadRequest) (resp : provider.ReadResponse) diags data,
      State_Get (provider.ReadRequest_State req) = (diags, data) ->
      HasError (provider.ReadResponse_Diagnostics resp ++ diags) = false ->
      types.ValueString (provider.Organization data) = organization ->
      types.ValueString (provider.ProviderKey data) = providerKey ->
      provider.Read client State_Get json_Marshal fuel req resp (mkWorld r log) =
      Some ({| provider.ReadResponse_State := provider.ReadResponse_State resp;
               provider.ReadResponse_Diagnostics :=
                 AddError (provider.ReadResponse_Diagnostics resp ++ diags) "Client Error"
                          ("Unable to read organization integrations, got error: " +:+ err) |},
            w')).
Proof.
  intros params w' Hfails Hfuel. split.
  - intros sep Quote LFF setError d Horg Hkey. subst organization providerKey.
    by apply legacy_read_fails.
  - intros State State_Get json_Marshal req resp diags data Hget Hok Horg Hkey.
    subst organization providerKey.
    by apply provider_read_fails.
Qed.

(** ** Delete and update of the SDKv2 variant *)

(** C4. Delete issues exactly one call to the remote service, an
    [UpdateConfig] whose document is the empty mapping, whether that call
    succeeds or fails. *)
Theorem C4_delete_is_one_empty_update {R : Type} (client : Client R)
        (d : legacy.ResourceData) (w : World R) :
  calls (snd (legacy.resourceSentryOrganizationIntegrationConfigurationDelete client d w)) =
  calls w ++ [CallUpdateConfig (legacy.GetString d "organization") (legacy.Id d) ∅].
Proof.
  unfold legacy.resourceSentryOrganizationIntegrationConfigurationDelete, callUpdateConfig.
  destruct (OrganizationIntegrations.UpdateConfig client (remote w) _ _ _) as [[err|res] r'];
    reflexivity.
Qed.

Lemma SetId_same (d : legacy.ResourceData) : legacy.SetId d (legacy.Id d) = d.
Proof. by destruct d. Qed.

(** C8. Update calls [UpdateConfig] once; when it fails the error is the
    result and no [List] call follows (the read is not run); when it
    succeeds the result is that of the read run on the state the service
    is then in. *)
Theorem C8_update_rereads {R : Type} (client : Client R) (sep : ascii)
        (Quote : string -> string) (ListFormatFunc : list error -> string)
        (setError : string -> legacy.Value -> option error)
        (fuel : nat) (d : legacy.ResourceData) (w : World R) :
  let organization := legacy.GetString d "organization" in
  let config := legacy.GetConfig d "config" in
  let log := calls w ++ [CallUpdateConfig organization (legacy.Id d) config] in
  legacy.resourceSentryOrganizationIntegrationConfigurationUpdate
    client sep Quote ListFormatFunc setError fuel d w =
  match OrganizationIntegrations.UpdateConfig client (remote w) organization (legacy.Id d) config
  with
  | (inl err, r') =>
      Some (legacy.FromErr
              (Some ("unable to update organization integration configuration: " +:+ err)),
            d, mkWorld r' log)
  | (inr _, r') =>
      legacy.resourceSentryOrganizationIntegrationConfigurationRead
        client sep Quote ListFormatFunc setError fuel d (mkWorld r' log)
  end.
Proof.
  intros organization config log.
  unfold legacy.resourceSentryOrganizationIntegrationConfigurationUpdate, callUpdateConfig.
  fold organization. fold config.
  destruct (OrganizationIntegrations.UpdateConfig client (remote w) organization _ config)
    as [[err|res] r']; [reflexivity|].
  by rewrite SetId_same.
Qed.

(** ** The composite identifier codec *)

Lemma split_nonempty (sep : ascii) (s : string) : split sep s <> [].
Proof.
  destruct s as [|c rest]; simpl; [discriminate|].
  destruct (Ascii.eqb c sep); [discriminate|].
  destruct (split sep rest); discriminate.
Qed.

Lemma split_length (sep : ascii) (s : string) :
  length (split sep s) = S (occurrences sep s).
Proof.
  induction s as [|c rest IH]; [reflexivity|].
  simpl. destruct (Ascii.eqb c sep); simpl; [by rewrite IH|].
  destruct (split sep rest) as [|part parts] eqn:E; [by destruct (split_nonempty sep rest)|].
  simpl in *. exact IH.
Qed.

Lemma split_plain (sep : ascii) (s : string) :
  occurrences sep s = 0 -> split sep s = [s].
Proof.
  induction s as [|c rest IH]; [reflexivity|].
  simpl. destruct (Ascii.eqb c sep); [discriminate|].
  intros H. by rewrite (IH H).
Qed.

Lemma split_join (sep : ascii) (a rest : string) :
  occurrences sep a = 0 ->
  split sep (a +:+ String sep rest) = a :: split sep rest.
Proof.
  induction a as [|c a IH]; simpl.
  - intros _. by rewrite Ascii.eqb_refl.
  - destruct (Ascii.eqb c sep); [discriminate|].
    intros H. by rewrite (IH H).
Qed.

(** C9. Decoding the identifier built from three parts that do not
    contain the delimiter gives back exactly these parts, and decoding
    fails with the malformed-identifier error on every input that does
    not split into exactly three parts. *)
Theorem C9_codec_round_trip (sep : ascii) (organization providerKey internalID id : string) :
  (occurrences sep organization = 0 ->
   occurrences sep providerKey = 0 ->
   occurrences sep internalID = 0 ->
   decode sep (buildThreePartID sep organization providerKey internalID)
   = inr (organization, providerKey, internalID))
  /\
  (length (split sep id) <> 3 -> decode sep id = inl MalformedIDError).
Proof.
  split.
  - intros Ho Hk Hi. unfold decode, buildThreePartID.
    by rewrite (split_join sep _ _ Ho), (split_join sep _ _ Hk), (split_plain sep _ Hi).
  - intros Hlen. unfold decode.
    destruct (split sep id) as [|a [|b [|c [|e rest]]]]; try reflexivity.
    simpl in Hlen. lia.
Qed.

(** ** What the variants leave behind *)

(** Every run of the loop that returns starts with a [List] call. *)
Lemma listLoop_calls_first {R : Type} (client : Client R) (fuel : nat) (organization : string)
      (params : ListOrganizationIntegrationsParams) (name : string)
      (acc : list OrganizationIntegration) (w w' : World R)
      (res : error + list OrganizationIntegration) :
  listLoop client fuel organization params name acc w = Some (res, w') ->
  exists rest, calls w' = calls w ++ CallList organization params :: rest.
Proof.
  revert params acc w. induction fuel as [|fuel IH]; intros params acc w; [discriminate|].
  destruct w as [r log]. rewrite listLoop_step.
  destruct (OrganizationIntegrations.List client r organization params)
    as [[err|[its apiResp]] r1].
  - intros [= <- <-]. by exists [].
  - destruct (String.eqb (Response.Cursor apiResp) "").
    + intros [= <- <-]. by exists [].
    + intros H. apply IH in H as [rest Hrest]. simpl in Hrest.
      exists (CallList organization (setCursor params (Response.Cursor apiResp)) :: rest).
      rewrite Hrest. simpl. by rewrite <- app_assoc.
Qed.

(** The framework variant's [Create] submits the deserialised desired
    document; the [IsFragment] field of the plan plays no part. *)
Lemma provider_create_submits {R State Plan : Type} (client : Client R)
      (Plan_Get : Plan -> Diagnostics * provider.Model)
      (State_Set : State -> provider.Model -> Diagnostics * State)
      (json_Unmarshal : string -> error + IntegrationConfigData)
      (req : provider.CreateRequest) (resp : provider.CreateResponse) (w : World R)
      (diags : Diagnostics) (data : provider.Model) (configData : IntegrationConfigData) :
  Plan_Get (provider.CreateRequest_Plan req) = (diags, data) ->
  HasError (provider.CreateResponse_Diagnostics resp ++ diags) = false ->
  json_Unmarshal (types.ValueString (provider.ConfigData data)) = inr configData ->
  calls (snd (provider.Create client Plan_Get State_Set json_Unmarshal req resp w)) =
  calls w ++ [CallUpdateConfig (types.ValueString (provider.Organization data))
                               (types.ValueString (provider.Id data)) configData].
Proof.
  intros Hget Hok Hdoc. unfold provider.Create. rewrite Hget. simpl. rewrite Hok, Hdoc.
  unfold callUpdateConfig.
  destruct (OrganizationIntegrations.UpdateConfig client (remote w) _ _ configData)
    as [[err|res] r']; simpl.
  - reflexivity.
  - by destruct (State_Set _ data).
Qed.

(** The framework variant's [Read] hands back the state it was given. *)
Lemma provider_read_keeps_state {R State : Type} (client : Client R)
      (State_Get : State -> Diagnostics * provider.Model)
      (json_Marshal : IntegrationConfigData -> error + string)
      (fuel : nat) (req : provider.ReadRequest) (resp resp' : provider.ReadResponse)
      (w w' : World R) :
  provider.Read client State_Get json_Marshal fuel req resp w = Some (resp', w') ->
  provider.ReadResponse_State resp' = provider.ReadResponse_State resp.
Proof.
  unfold provider.Read.
  destruct (State_Get (provider.ReadRequest_State req)) as [diags data]. simpl.
  destruct (HasError _); [by intros [= <- _]|].
  destruct (listLoop _ _ _ _ _ _ _) as [[[err|matched] w1]|]; [| |discriminate].
  - by intros [= <- _].
  - intros [= <- _]. unfold provider.readMatched.
    destruct (checkMatches matched) as [| |first]; try reflexivity.
    destruct (json_Marshal _); reflexivity.
Qed.

Lemma ResourceData_Set_Id (setError : string -> legacy.Value -> option error)
      (d : legacy.ResourceData) (key : string) (value : legacy.Value) :
  legacy.Id (snd (legacy.ResourceData_Set setError d key value)) = legacy.Id d.
Proof. unfold legacy.ResourceData_Set. by destruct (setError key value). Qed.

(** The identifier the SDKv2 variant's read assigns is built from the
    [internal_id] read from the resource, not from the matched item. *)
Lemma legacy_read_identifier (sep : ascii) (Quote : string -> string)
      (ListFormatFunc : list error -> string)
      (setError : string -> legacy.Value -> option error)
      (d : legacy.ResourceData) (internal_id organization providerKey name : string)
      (first : OrganizationIntegration) :
  legacy.Id (snd (legacy.readMatched sep Quote ListFormatFunc setError d internal_id
                                     organization providerKey name [first])) =
  buildThreePartID sep organization providerKey internal_id.
Proof.
  unfold legacy.readMatched. simpl.
  repeat match goal with
         | |- context [legacy.ResourceData_Set setError ?d0 ?k ?v] =>
             let H := fresh "H" in
             pose proof (ResourceData_Set_Id setError d0 k v) as H;
             destruct (legacy.ResourceData_Set setError d0 k v); simpl in H
         end.
  simpl. congruence.
Qed.

(** A read of the SDKv2 variant that matched and reports no diagnostic
    has stored organization, provider key, name and the matched item's
    configuration, the latter passed through as it is. *)
Lemma legacy_read_populates (sep : ascii) (Quote : string -> string)
      (ListFormatFunc : list error -> string)
      (setError : string -> legacy.Value -> option error)
      (d d' : legacy.ResourceData) (internal_id organization providerKey name : string)
      (first : OrganizationIntegration) :
  legacy.readMatched sep Quote ListFormatFunc setError d internal_id
                     organization providerKey name [first] = ([], d') ->
  legacy.GetString d' "organization" = organization /\
  legacy.GetString d' "provider_key" = providerKey /\
  legacy.GetString d' "name" = name /\
  legacy.GetConfig d' "config" = sentry.ConfigData first.
Proof.
  unfold legacy.readMatched, legacy.ResourceData_Set. simpl.
  destruct (setError "organization" _); destruct (setError "provider_key" _);
    destruct (setError "name" _); destruct (setError "config" _);
    simpl; try discriminate.
  intros [= <-]. unfold legacy.GetString, legacy.GetConfig. simpl.
  repeat split; by simplify_map_eq.
Qed.

(** ** Runs on the simulated service *)

(** The end-to-end scenario: X and Y on the first page, Z on the second;
    reading Y succeeds with the item of the first page, reading Q finds
    nothing. *)
Example read_two_pages_Y :
  lookupInLoop Sim.client 2 "acme" Sim.slackParams "Y" (Sim.start Sim.twoPages) =
  Some (inr (Matched Sim.itemY),
        mkWorld Sim.twoPages [CallList "acme" Sim.slackParams;
                              CallList "acme" (setCursor Sim.slackParams "c2")]).
Proof. reflexivity. Qed.

Example read_two_pages_Q :
  lookupInLoop Sim.client 2 "acme" Sim.slackParams "Q" (Sim.start Sim.twoPages) =
  Some (inr NotFound,
        mkWorld Sim.twoPages [CallList "acme" Sim.slackParams;
                              CallList "acme" (setCursor Sim.slackParams "c2")]).
Proof. reflexivity. Qed.

(** Names are compared as they are: a different case is a different
    name. *)
Example match_is_case_sensitive : matchStep [Sim.itemX] "x" = NotFound.
Proof. reflexivity. Qed.

Lemma twoPages_serves :
  Serves Sim.client "acme" Sim.slackParams Sim.twoPages
         [ {| items := [Sim.itemX; Sim.itemY]; next := "c2" |};
           {| items := [Sim.itemZ]; next := "" |} ]
         Sim.twoPages.
Proof.
  eapply ServesNext; [reflexivity | reflexivity |].
  apply ServesLast. reflexivity.
Defined.

Lemma brokenSecondPage_fails :
  FailsAfter Sim.client "acme" Sim.slackParams Sim.brokenSecondPage
             [ {| items := [Sim.itemX; Sim.itemY]; next := "c2" |} ]
             "502 Bad Gateway" Sim.brokenSecondPage.
Proof.
  eapply FailsLater; [reflexivity | reflexivity |].
  apply FailsNow. reflexivity.
Defined.

(** C3 as stated fails: on the two pages above and the name Y the loop
    accumulates the one matching item, not the three items served. *)
Lemma C3_accumulates_all_items_refuted :
  ~ (forall (R : Type) (client : Client R) (organization providerKey name : string)
            (r r' : R) (pages : list Page) (fuel : nat) (log : list Call),
        let params := {| listCursorParams := {| Cursor := "" |};
                         ProviderKey := providerKey |} in
        Serves client organization params r pages r' ->
        length pages <= fuel ->
        listLoop client fuel organization params name [] (mkWorld r log) =
        Some (inr (allItems pages),
              mkWorld r' (log ++ listCalls organization params pages))).
Proof.
  intros H.
  specialize (H _ Sim.client "acme" "slack" "Y" Sim.twoPages Sim.twoPages _ 2 []
                twoPages_serves (le_n 2)).
  vm_compute in H. discriminate H.
Qed.

Lemma C3_pagination_witness :
  listLoop Sim.client 2 "acme" Sim.slackParams "Y" [] (Sim.start Sim.twoPages) =
  Some (inr [Sim.itemY],
        mkWorld Sim.twoPages [CallList "acme" Sim.slackParams;
                              CallList "acme" (setCursor Sim.slackParams "c2")]).
Proof.
  exact (C3_pagination_accumulates_matches Sim.client "acme" "slack" "Y"
           Sim.twoPages Sim.twoPages _ 2 [] twoPages_serves (le_n 2)).
Defined.

Lemma C7_failed_page_witness :
  Sim.legacyRead 2 (Sim.declared "Y") (Sim.start Sim.brokenSecondPage) =
  Some (legacy.FromErr
          (Some "unable to read organization integration configurations: 502 Bad Gateway"),
        Sim.declared "Y",
        mkWorld Sim.brokenSecondPage [CallList "acme" Sim.slackParams;
                                      CallList "acme" (setCursor Sim.slackParams "c2")])
  /\
  Sim.Read 2 {| provider.ReadRequest_State := Sim.priorState |}
           {| provider.ReadResponse_State := Sim.priorState;
              provider.ReadResponse_Diagnostics := [] |}
           (Sim.start Sim.brokenSecondPage) =
  Some ({| provider.ReadResponse_State := Sim.priorState;
           provider.ReadResponse_Diagnostics :=
             AddError [] "Client Error"
                      "Unable to read organization integrations, got error: 502 Bad Gateway" |},
        mkWorld Sim.brokenSecondPage [CallList "acme" Sim.slackParams;
                                      CallList "acme" (setCursor Sim.slackParams "c2")]).
Proof.
  destruct (C7_failed_page_fails_read Sim.client "acme" "slack" 2
              Sim.brokenSecondPage Sim.brokenSecondPage _ "502 Bad Gateway" []
              brokenSecondPage_fails (le_n 2)) as [Hlegacy Hprovider].
  split.
  - exact (Hlegacy "/"%char Sim.Quote Sim.ListFormatFunc Sim.setError (Sim.declared "Y")
                   eq_refl eq_refl).
  - exact (Hprovider _ Sim.State_Get Sim.json_Marshal
                     {| provider.ReadRequest_State := Sim.priorState |}
                     {| provider.ReadResponse_State := Sim.priorState;
                        provider.ReadResponse_Diagnostics := [] |}
                     [] Sim.priorState eq_refl eq_refl eq_refl eq_refl).
Defined.

Lemma C9_codec_witness :
  decode "/" (buildThreePartID "/" "acme" "slack" "42") = inr ("acme", "slack", "42")
  /\ decode "/" "acme/slack" = inl MalformedIDError.
Proof.
  destruct (C9_codec_round_trip "/" "acme" "slack" "42" "acme/slack") as [Hround Hfail].
  split.
  - exact (Hround eq_refl eq_refl eq_refl).
  - apply Hfail. simpl. lia.
Defined.


(** C5 on the code: the resource was declared (its [internal_id] never
    assigned) and the single match has internal id 42; the read succeeds
    and the identifier it sets ends in the empty [internal_id] of the
    resource, not in 42. *)
Theorem C5_read_identifier_not_from_match :
  exists d' w',
    Sim.legacyRead 1 (Sim.declared "X") (Sim.start Sim.singleRemote) = Some ([], d', w')
    /\ legacy.Id d' = "acme/slack/"
    /\ legacy.Id d' <> buildThreePartID "/" "acme" "slack" "42".
Proof.
  eexists. eexists. split; [reflexivity|]. split; [reflexivity|].
  vm_compute. discriminate.
Qed.


(** * Further properties of the code *)

(** ** The lookup loop, for an arbitrary remote service *)
Section Lookup.
Context {R : Type}.
Variable client : Client R.

(** The calls of a run of the loop. *)
Lemma listLoop_issued (fuel : nat) (organization : string)
        (params : ListOrganizationIntegrationsParams) (name : string)
        (acc : list OrganizationIntegration) (w w' : World R)
        (res : error + list OrganizationIntegration) :
  listLoop client fuel organization params name acc w = Some (res, w') ->
  exists issued,
    calls w' = calls w ++ issued /\
    0 < length issued /\
    forallb (listCallFor organization (ProviderKey params)) issued = true.
Proof.
  revert params acc w. induction fuel as [|fuel IH]; intros params acc w; [discriminate|].
  assert (Hfirst : listCallFor organization (ProviderKey params)
                               (CallList organization params) = true).
  { simpl. by rewrite !String.eqb_refl. }
  destruct w as [r log]. rewrite listLoop_step.
  destruct (OrganizationIntegrations.List client r organization params)
    as [[err|[its apiResp]] r1].
  - intros [= <- <-]. exists [CallList organization params]. simpl in *.
    rewrite Hfirst. repeat split; [lia].
  - destruct (String.eqb (Response.Cursor apiResp) "").
    + intros [= <- <-]. exists [CallList organization params]. simpl in *.
      rewrite Hfirst. repeat split; [lia].
    + intros H. apply IH in H as (issued & Hcalls & Hlen & Hall). simpl in Hcalls, Hall.
      exists (CallList organization params :: issued). split; [|split].
      * rewrite Hcalls. by rewrite <- app_assoc.
      * simpl. lia.
      * change (forallb (listCallFor organization (ProviderKey params))
                        (CallList organization params :: issued))
          with (listCallFor organization (ProviderKey params) (CallList organization params)
                && forallb (listCallFor organization (ProviderKey params)) issued).
        by rewrite Hfirst, Hall.
Qed.

(** The items a run of the loop adds. *)
Lemma listLoop_added (fuel : nat) (organization : string)
        (params : ListOrganizationIntegrationsParams) (name : string)
        (acc matched : list OrganizationIntegration) (w w' : World R) :
  listLoop client fuel organization params name acc w = Some (inr matched, w') ->
  exists added,
    matched = acc ++ added /\
    Forall (fun integration => Name integration = name) added.
Proof.
  revert params acc w. induction fuel as [|fuel IH]; intros params acc w; [discriminate|].
  assert (Hfilter : forall its, Forall (fun i => Name i = name) (List.filter (nameIs name) its)).
  { intros its. apply List.Forall_forall. intros i Hi.
    apply List.filter_In in Hi as [_ Hi]. by apply nameIs_spec. }
  destruct w as [r log]. rewrite listLoop_step.
  destruct (OrganizationIntegrations.List client r organization params)
    as [[err|[its apiResp]] r1]; [discriminate|].
  rewrite appendMatches_filter.
  destruct (String.eqb (Response.Cursor apiResp) "").
  - intros [= <- <-]. eexists. split; [reflexivity|]. apply Hfilter.
  - intros H. apply IH in H as (added & -> & Hadded).
    exists (List.filter (nameIs name) its ++ added). split; [by rewrite <- app_assoc|].
    apply Forall_app. split; [apply Hfilter | exact Hadded].
Qed.

(** X3. The loop has no guard of its own: against a service that answers
    every [List] call with a non-empty cursor it makes as many calls as it
    is allowed and never returns. *)
Theorem X3_lookup_never_returns_without_empty_cursor (organization : string) (name : string) :
  (forall r params, exists its c r',
      OrganizationIntegrations.List client r organization params
      = (inr (its, {| Response.Cursor := c |}), r')
      /\ String.eqb c "" = false) ->
  forall fuel params acc w,
    listLoop client fuel organization params name acc w = None.
Proof.
  intros Hmore fuel. induction fuel as [|fuel IH]; intros params acc w; [reflexivity|].
  destruct w as [r log]. rewrite listLoop_step.
  destruct (Hmore r params) as (its & c & r' & -> & Hc). simpl. rewrite Hc.
  apply IH.
Qed.

End Lookup.

(** X1. Whatever the service answers, a lookup that returns has only
    issued [List] calls, at least one, all for the same organization and
    with the same provider-key filter: it never writes, and the filter is
    kept on every page. *)
Theorem X1_lookup_only_lists {R : Type} (client : Client R) (fuel : nat)
        (organization : string) (params : ListOrganizationIntegrationsParams) (name : string)
        (acc : list OrganizationIntegration) (w w' : World R)
        (res : error + list OrganizationIntegration) :
  listLoop client fuel organization params name acc w = Some (res, w') ->
  exists issued,
    calls w' = calls w ++ issued /\
    0 < length issued /\
    forallb (listCallFor organization (ProviderKey params)) issued = true.
Proof. apply listLoop_issued. Qed.

(** X2. Whatever the service answers, the loop only ever adds items whose
    name is the requested one: the result extends the accumulator it
    started from by items of that name. *)
Theorem X2_lookup_keeps_only_the_name {R : Type} (client : Client R) (fuel : nat)
        (organization : string) (params : ListOrganizationIntegrationsParams) (name : string)
        (acc matched : list OrganizationIntegration) (w w' : World R) :
  listLoop client fuel organization params name acc w = Some (inr matched, w') ->
  exists added,
    matched = acc ++ added /\
    Forall (fun integration => Name integration = name) added.
Proof. apply listLoop_added. Qed.

(** X4. The outcome of the match test does not depend on the order in
    which the items arrive: two sequences with the same items in any
    order give the same outcome, and the same item when there is one. *)
Theorem X4_match_ignores_order (its its' : list OrganizationIntegration) (name : string) :
  Permutation its its' ->
  matchStep its name = matchStep its' name.
Proof.
  intros Hperm. unfold matchStep.
  rewrite !appendMatches_filter, !app_nil_l, !checkMatches_cases, !filter_nameIs_decide.
  assert (Hf : filter (fun i => Name i = name) its ≡ₚ filter (fun i => Name i = name) its')
    by (by rewrite Hperm).
  destruct (filter _ its) as [|a [|b rest]].
  - apply Permutation_nil_l in Hf. by rewrite <- Hf.
  - apply Permutation_singleton_l in Hf. by rewrite <- Hf.
  - pose proof (Permutation_length Hf) as Hlen.
    destruct (filter _ its') as [|a' [|b' rest']]; simpl in Hlen; try lia. reflexivity.
Qed.

Lemma X4_match_order_witness :
  matchStep [Sim.itemX; Sim.itemY; Sim.itemZ] "Y" = matchStep [Sim.itemZ; Sim.itemY; Sim.itemX] "Y".
Proof.
  apply X4_match_ignores_order.
  apply perm_trans with [Sim.itemY; Sim.itemX; Sim.itemZ]; [apply perm_swap|].
  apply perm_trans with [Sim.itemY; Sim.itemZ; Sim.itemX]; [apply perm_skip, perm_swap|].
  apply perm_swap.
Defined.

Lemma X1_lookup_witness :
  exists issued,
    calls (mkWorld Sim.twoPages [CallList "acme" Sim.slackParams;
                                 CallList "acme" (setCursor Sim.slackParams "c2")])
    = calls (Sim.start Sim.twoPages) ++ issued /\
    0 < length issued /\
    forallb (listCallFor "acme" "slack") issued = true.
Proof.
  exact (X1_lookup_only_lists Sim.client 2 "acme" Sim.slackParams "Y" []
           (Sim.start Sim.twoPages) _ (inr [Sim.itemY]) eq_refl).
Defined.

Lemma X2_lookup_witness :
  exists added,
    [Sim.itemY] = [] ++ added /\
    Forall (fun integration => Name integration = "Y") added.
Proof.
  exact (X2_lookup_keeps_only_the_name Sim.client 2 "acme" Sim.slackParams "Y" [] [Sim.itemY]
           (Sim.start Sim.twoPages) _ eq_refl).
Defined.

Lemma X3_lookup_witness :
  listLoop Sim.endlessClient 50 "acme" Sim.slackParams "X" [] (mkWorld tt []) = None.
Proof.
  apply (X3_lookup_never_returns_without_empty_cursor Sim.endlessClient "acme" "X").
  intros r params. eexists. eexists. eexists. split; reflexivity.
Defined.

(** ** The framework variant *)
Section Framework.
Context {R State Plan : Type}.
Variable client : Client R.
Variable State_Get : State -> Diagnostics * provider.Model.
Variable Plan_Get : Plan -> Diagnostics * provider.Model.
Variable State_Set : State -> provider.Model -> Diagnostics * State.
Variable json_Marshal : IntegrationConfigData -> error + string.
Variable json_Unmarshal : string -> error + IntegrationConfigData.

Lemma AddError_not_same (ds : Diagnostics) (summary detail : string) :
  AddError ds summary detail <> ds.
Proof.
  unfold AddError. intros H. apply (f_equal length) in H.
  rewrite length_app in H. simpl in H. lia.
Qed.

Ltac one_error_added :=
  eexists [_]; simpl; unfold AddError; rewrite <- app_assoc;
  split; [reflexivity | split; [simpl; lia | reflexivity]].

(** X5. A read that returns keeps the diagnostics it was given, appends
    those of [State.Get], and adds at most one diagnostic of its own,
    which is an error filed under one of four summaries. *)
Theorem X5_read_adds_at_most_one_error (fuel : nat) (req : provider.ReadRequest)
        (resp resp' : provider.ReadResponse) (w w' : World R) :
  provider.Read client State_Get json_Marshal fuel req resp w = Some (resp', w') ->
  exists added,
    provider.ReadResponse_Diagnostics resp' =
      provider.ReadResponse_Diagnostics resp
      ++ fst (State_Get (provider.ReadRequest_State req)) ++ added /\
    length added <= 1 /\
    forallb readDiagnostic added = true.
Proof.
  unfold provider.Read.
  destruct (State_Get (provider.ReadRequest_State req)) as [diags data]. simpl.
  destruct (HasError _).
  - intros [= <- _]. exists []. simpl. rewrite app_nil_r. split; [reflexivity|]. split; [lia|done].
  - destruct (listLoop _ _ _ _ _ _ _) as [[[err|matched] w1]|]; [| |discriminate].
    + intros [= <- _]. one_error_added.
    + intros [= <- _]. unfold provider.readMatched.
      destruct (checkMatches matched) as [| |first]; simpl; [one_error_added..|].
      destruct (json_Marshal _); simpl; [one_error_added|].
      exists []. simpl. rewrite app_nil_r. split; [reflexivity|]. split; [lia|done].
Qed.

(** X6. When the diagnostics carry an error once [State.Get] has run, the
    read stops there: it returns at once, whatever the bound on calls, and
    the remote service is not contacted. *)
Theorem X6_read_stops_on_state_error (fuel : nat) (req : provider.ReadRequest)
        (resp : provider.ReadResponse) (w : World R) :
  HasError (provider.ReadResponse_Diagnostics resp
            ++ fst (State_Get (provider.ReadRequest_State req))) = true ->
  provider.Read client State_Get json_Marshal fuel req resp w =
  Some ({| provider.ReadResponse_State := provider.ReadResponse_State resp;
           provider.ReadResponse_Diagnostics :=
             provider.ReadResponse_Diagnostics resp
             ++ fst (State_Get (provider.ReadRequest_State req)) |}, w).
Proof.
  unfold provider.Read.
  destruct (State_Get (provider.ReadRequest_State req)) as [diags data]. simpl.
  by intros ->.
Qed.

(** X7. A read that gets past [State.Get] adds no diagnostic exactly when
    the lookup found a single integration and its configuration could be
    serialised. *)
Theorem X7_read_succeeds_iff_single_match (fuel : nat) (req : provider.ReadRequest)
        (resp resp' : provider.ReadResponse) (w w' : World R) :
  let diags := fst (State_Get (provider.ReadRequest_State req)) in
  let data := snd (State_Get (provider.ReadRequest_State req)) in
  let params := {| listCursorParams := {| Cursor := "" |};
                   ProviderKey := types.ValueString (provider.ProviderKey data) |} in
  HasError (provider.ReadResponse_Diagnostics resp ++ diags) = false ->
  provider.Read client State_Get json_Marshal fuel req resp w = Some (resp', w') ->
  (provider.ReadResponse_Diagnostics resp' = provider.ReadResponse_Diagnostics resp ++ diags
   <->
   exists single text,
     lookupInLoop client fuel (types.ValueString (provider.Organization data)) params
                  (types.ValueString (provider.Name data)) w
     = Some (inr (Matched single), w')
     /\ json_Marshal (sentry.ConfigData single) = inr text).
Proof.
  intros diags data params. subst diags data params.
  unfold provider.Read, lookupInLoop.
  destruct (State_Get (provider.ReadRequest_State req)) as [diags data]. simpl.
  intros ->.
  destruct (listLoop _ _ _ _ _ _ _) as [[[err|matched] w1]|]; [| |discriminate].
  - intros [= <- <-]. simpl. split.
    + intros H. by apply AddError_not_same in H.
    + intros (single & text & [=] & _).
  - intros [= <- <-]. unfold provider.readMatched.
    destruct (checkMatches matched) as [| |first]; simpl.
    + split; [intros H; by apply AddError_not_same in H | intros (? & ? & [=] & _)].
    + split; [intros H; by apply AddError_not_same in H | intros (? & ? & [=] & _)].
    + destruct (json_Marshal (sentry.ConfigData first)) as [err|text] eqn:E; simpl.
      * split; [intros H; by apply AddError_not_same in H|].
        intros (single & text & [= <-] & Hm). congruence.
      * split; [|done]. intros _. by exists first, text.
Qed.

(** X8. [Create] contacts the remote service at most once, with an
    [UpdateConfig] for the organization and identifier of the plan; it
    never lists, so it never checks that the integration exists or is
    unique. *)
Theorem X8_create_calls_at_most_one_update (req : provider.CreateRequest)
        (resp : provider.CreateResponse) (w : World R) :
  let data := snd (Plan_Get (provider.CreateRequest_Plan req)) in
  exists issued,
    calls (snd (provider.Create client Plan_Get State_Set json_Unmarshal req resp w))
    = calls w ++ issued /\
    (issued = [] \/
     exists document,
       issued = [CallUpdateConfig (types.ValueString (provider.Organization data))
                                  (types.ValueString (provider.Id data)) document]).
Proof.
  intros data. subst data. unfold provider.Create.
  destruct (Plan_Get (provider.CreateRequest_Plan req)) as [diags data]. simpl.
  destruct (HasError _); [exists []; simpl; rewrite app_nil_r; auto|].
  destruct (json_Unmarshal _) as [err|document]; [exists []; simpl; rewrite app_nil_r; auto|].
  unfold callUpdateConfig.
  destruct (OrganizationIntegrations.UpdateConfig client (remote w) _ _ document)
    as [[err|res] r']; simpl.
  - eexists. split; [reflexivity|]. right. by exists document.
  - destruct (State_Set _ data). simpl. eexists. split; [reflexivity|]. right. by exists document.
Qed.

(** X9. When [UpdateConfig] succeeds, [Create] stores the planned model
    as it is and reports nothing more: the integration the service
    returned and the diagnostics of [State.Set] are both dropped. *)
Theorem X9_create_stores_the_plan (req : provider.CreateRequest)
        (resp : provider.CreateResponse) (w : World R)
        (diags : Diagnostics) (data : provider.Model) (document : IntegrationConfigData)
        (res : OrganizationIntegration) (r' : R) :
  Plan_Get (provider.CreateRequest_Plan req) = (diags, data) ->
  HasError (provider.CreateResponse_Diagnostics resp ++ diags) = false ->
  json_Unmarshal (types.ValueString (provider.ConfigData data)) = inr document ->
  OrganizationIntegrations.UpdateConfig client (remote w)
    (types.ValueString (provider.Organization data))
    (types.ValueString (provider.Id data)) document = (inr res, r') ->
  fst (provider.Create client Plan_Get State_Set json_Unmarshal req resp w) =
  {| provider.CreateResponse_State :=
       snd (State_Set (provider.CreateResponse_State resp) data);
     provider.CreateResponse_Diagnostics :=
       provider.CreateResponse_Diagnostics resp ++ diags |}.
Proof.
  intros Hget Hok Hdoc Hupdate. unfold provider.Create. rewrite Hget. simpl.
  rewrite Hok, Hdoc. unfold callUpdateConfig. rewrite Hupdate. simpl.
  by destruct (State_Set _ data).
Qed.

(** X10. Whenever [Create] adds a diagnostic of its own (or stops on
    those of [Plan.Get]), the state of the response is the one it was
    given. *)
Theorem X10_create_failure_keeps_state (req : provider.CreateRequest)
        (resp : provider.CreateResponse) (w : World R) :
  let resp' := fst (provider.Create client Plan_Get State_Set json_Unmarshal req resp w) in
  HasError (provider.CreateResponse_Diagnostics resp') = true ->
  provider.CreateResponse_State resp' = provider.CreateResponse_State resp.
Proof.
  intros resp'. subst resp'. unfold provider.Create.
  destruct (Plan_Get (provider.CreateRequest_Plan req)) as [diags data]. simpl.
  destruct (HasError (provider.CreateResponse_Diagnostics resp ++ diags)) eqn:Hok; [done|].
  destruct (json_Unmarshal _) as [err|document]; [done|].
  unfold callUpdateConfig.
  destruct (OrganizationIntegrations.UpdateConfig client (remote w) _ _ document)
    as [[err|res] r']; simpl; [done|].
  destruct (State_Set _ data). simpl. congruence.
Qed.

(** X11. The identifier sent to the service is the plan's [id] attribute;
    when that attribute is null or unknown, as a computed attribute is
    before the resource exists, [UpdateConfig] is called with the empty
    identifier. *)
Theorem X11_create_unknown_id_sends_empty (req : provider.CreateRequest)
        (resp : provider.CreateResponse) (w : World R)
        (diags : Diagnostics) (data : provider.Model) (document : IntegrationConfigData) :
  Plan_Get (provider.CreateRequest_Plan req) = (diags, data) ->
  HasError (provider.CreateResponse_Diagnostics resp ++ diags) = false ->
  json_Unmarshal (types.ValueString (provider.ConfigData data)) = inr document ->
  provider.Id data = types.StringUnknown \/ provider.Id data = types.StringNull ->
  calls (snd (provider.Create client Plan_Get State_Set json_Unmarshal req resp w)) =
  calls w ++ [CallUpdateConfig (types.ValueString (provider.Organization data)) "" document].
Proof.
  intros Hget Hok Hdoc Hid.
  rewrite (provider_create_submits client Plan_Get State_Set json_Unmarshal req resp w
             diags data document Hget Hok Hdoc).
  by destruct Hid as [-> | ->].
Qed.

End Framework.

(** ** The SDKv2 variant *)
Section Legacy.
Context {R : Type}.
Variable client : Client R.
Variable sep : ascii.
Variable Quote : string -> string.
Variable ListFormatFunc : list error -> string.
Variable setError : string -> legacy.Value -> option error.

Local Abbreviation Read :=
  (legacy.resourceSentryOrganizationIntegrationConfigurationRead
     client sep Quote ListFormatFunc setError).
Local Abbreviation Update :=
  (legacy.resourceSentryOrganizationIntegrationConfigurationUpdate
     client sep Quote ListFormatFunc setError).
Local Abbreviation readMatched := (legacy.readMatched sep Quote ListFormatFunc setError).

(** The parameters of the first [List] call of a read. *)
Local Abbreviation paramsOf d :=
  {| listCursorParams := {| Cursor := "" |};
     ProviderKey := legacy.GetString d "provider_key" |}.

Lemma checkMatches_Matched (matched : list OrganizationIntegration)
      (first : OrganizationIntegration) :
  checkMatches matched = Matched first -> matched = [first].
Proof.
  rewrite checkMatches_cases. destruct matched as [|a [|b rest]]; [discriminate| |discriminate].
  by intros [= ->].
Qed.

(** The read in terms of the lookup's outcome. *)
Lemma legacy_read_by_outcome (fuel : nat) (d : legacy.ResourceData) (w : World R) :
  Read fuel d w =
  match lookupInLoop client fuel (legacy.GetString d "organization") (paramsOf d)
                     (legacy.GetString d "name") w with
  | None => None
  | Some (inl err, w') =>
      Some (legacy.FromErr
              (Some ("unable to read organization integration configurations: " +:+ err)),
            d, w')
  | Some (inr NotFound, w') =>
      Some (legacy.Errorf Quote
              "no matching organization integration configurations found with name "
              (legacy.GetString d "name"), d, w')
  | Some (inr NotUnique, w') =>
      Some (legacy.Errorf Quote
              "found multiple matching organization integration configurations with name "
              (legacy.GetString d "name"), d, w')
  | Some (inr (Matched first), w') =>
      Some (readMatched d (legacy.GetString d "internal_id")
                        (legacy.GetString d "organization")
                        (legacy.GetString d "provider_key")
                        (legacy.GetString d "name") [first], w')
  end.
Proof.
  unfold legacy.resourceSentryOrganizationIntegrationConfigurationRead, lookupInLoop.
  destruct (listLoop _ _ _ _ _ _ _) as [[[err|matched] w']|]; try reflexivity.
  destruct (checkMatches matched) as [| |first] eqn:E.
  - unfold legacy.readMatched. by rewrite E.
  - unfold legacy.readMatched. by rewrite E.
  - by rewrite (checkMatches_Matched _ _ E).
Qed.

(** X12. When the lookup finds no integration of that name, or more than
    one, the read reports the corresponding error and leaves the
    resource, identifier included, exactly as it was. *)
Theorem X12_read_without_single_match_keeps_resource (fuel : nat)
        (d : legacy.ResourceData) (w w' : World R) (outcome : MatchOutcome) :
  lookupInLoop client fuel (legacy.GetString d "organization") (paramsOf d)
               (legacy.GetString d "name") w = Some (inr outcome, w') ->
  match outcome with
  | NotFound =>
      Read fuel d w =
      Some (legacy.Errorf Quote
              "no matching organization integration configurations found with name "
              (legacy.GetString d "name"), d, w')
  | NotUnique =>
      Read fuel d w =
      Some (legacy.Errorf Quote
              "found multiple matching organization integration configurations with name "
              (legacy.GetString d "name"), d, w')
  | Matched _ => True
  end.
Proof.
  intros H. rewrite legacy_read_by_outcome, H. by destruct outcome.
Qed.

(** X13. Whenever the lookup finds a single integration, the read sets
    the identifier to the composite of organization, provider key and the
    [internal_id] held by the resource, whatever the identifier of the
    integration found, and also when one of the writes that follow is
    rejected. *)
Theorem X13_read_identifier_from_resource (fuel : nat) (d : legacy.ResourceData)
        (w w' : World R) (first : OrganizationIntegration) :
  lookupInLoop client fuel (legacy.GetString d "organization") (paramsOf d)
               (legacy.GetString d "name") w = Some (inr (Matched first), w') ->
  exists diags d',
    Read fuel d w = Some (diags, d', w') /\
    legacy.Id d' = buildThreePartID sep (legacy.GetString d "organization")
                                    (legacy.GetString d "provider_key")
                                    (legacy.GetString d "internal_id").
Proof.
  intros H. rewrite legacy_read_by_outcome, H.
  pose proof (legacy_read_identifier sep Quote ListFormatFunc setError d
                (legacy.GetString d "internal_id") (legacy.GetString d "organization")
                (legacy.GetString d "provider_key") (legacy.GetString d "name") first) as Hid.
  destruct (readMatched _ _ _ _ _ _) as [diags d']. by exists diags, d'.
Qed.

(** X14. No read ever assigns the computed attribute [internal_id]: it
    holds after the read what it held before, on every path. *)
Theorem X14_read_never_assigns_internal_id (fuel : nat) (d d' : legacy.ResourceData)
        (w w' : World R) (diags : Diagnostics) :
  Read fuel d w = Some (diags, d', w') ->
  legacy.attributes d' !! "internal_id" = legacy.attributes d !! "internal_id".
Proof.
  rewrite legacy_read_by_outcome.
  destruct (lookupInLoop _ _ _ _ _ _) as [[[err|[| |first]] w1]|]; try discriminate;
    try (by intros [= _ <- _]).
  unfold legacy.readMatched, legacy.ResourceData_Set. simpl.
  destruct (setError "organization" _); destruct (setError "provider_key" _);
    destruct (setError "name" _); destruct (setError "config" _);
    simpl; intros [= _ <- _]; simpl; by simplify_map_eq.
Qed.

(** X15. Once a single integration is found, the read reports no
    diagnostic exactly when all four of its writes (organization,
    provider key, name, configuration) are accepted. *)
Theorem X15_read_clean_iff_writes_accepted (fuel : nat) (d : legacy.ResourceData)
        (w w' : World R) (first : OrganizationIntegration) :
  lookupInLoop client fuel (legacy.GetString d "organization") (paramsOf d)
               (legacy.GetString d "name") w = Some (inr (Matched first), w') ->
  ((exists d', Read fuel d w = Some ([], d', w'))
   <->
   setError "organization" (legacy.VString (legacy.GetString d "organization")) = None /\
   setError "provider_key" (legacy.VString (legacy.GetString d "provider_key")) = None /\
   setError "name" (legacy.VString (legacy.GetString d "name")) = None /\
   setError "config" (legacy.VMap (sentry.ConfigData first)) = None).
Proof.
  intros H. rewrite legacy_read_by_outcome, H.
  unfold legacy.readMatched, legacy.ResourceData_Set. simpl.
  destruct (setError "organization" _); destruct (setError "provider_key" _);
    destruct (setError "name" _); destruct (setError "config" _); simpl;
    (split; [intros [d' [=]] | intros (? & ? & ? & ?); try discriminate]);
    try done; by eexists.
Qed.

(** X16. Under a field writer that accepts every write fitting the
    schema the resource declares, a read that finds a single integration
    reports no diagnostic: the four attributes it writes are declared,
    with the kind of value written. *)
Theorem X16_read_writes_fit_schema (fuel : nat) (d : legacy.ResourceData)
        (w w' : World R) (first : OrganizationIntegration) :
  (forall key value, legacy.fitsSchema key value = true -> setError key value = None) ->
  lookupInLoop client fuel (legacy.GetString d "organization") (paramsOf d)
               (legacy.GetString d "name") w = Some (inr (Matched first), w') ->
  exists d', Read fuel d w = Some ([], d', w').
Proof.
  intros Hfits H. rewrite legacy_read_by_outcome, H.
  unfold legacy.readMatched, legacy.ResourceData_Set. simpl.
  rewrite !Hfits by reflexivity. simpl. by eexists.
Qed.

Lemma GetString_lookup (d0 : legacy.ResourceData) (key s : string) :
  legacy.attributes d0 !! key = Some (legacy.VString s) -> legacy.GetString d0 key = s.
Proof. unfold legacy.GetString. by intros ->. Qed.

Lemma GetConfig_lookup (d0 : legacy.ResourceData) (key : string) (m : IntegrationConfigData) :
  legacy.attributes d0 !! key = Some (legacy.VMap m) -> legacy.GetConfig d0 key = m.
Proof. unfold legacy.GetConfig. by intros ->. Qed.

(** A read without diagnostics, spelled out. *)
Lemma legacy_read_clean_inv (fuel : nat) (d d' : legacy.ResourceData) (w w' : World R) :
  Read fuel d w = Some ([], d', w') ->
  exists first,
    lookupInLoop client fuel (legacy.GetString d "organization") (paramsOf d)
                 (legacy.GetString d "name") w = Some (inr (Matched first), w') /\
    setError "organization" (legacy.VString (legacy.GetString d "organization")) = None /\
    setError "provider_key" (legacy.VString (legacy.GetString d "provider_key")) = None /\
    setError "name" (legacy.VString (legacy.GetString d "name")) = None /\
    setError "config" (legacy.VMap (sentry.ConfigData first)) = None /\
    d' = {| legacy.Id := buildThreePartID sep (legacy.GetString d "organization")
                                          (legacy.GetString d "provider_key")
                                          (legacy.GetString d "internal_id");
            legacy.attributes :=
              <["config" := legacy.VMap (sentry.ConfigData first)]>
                (<["name" := legacy.VString (legacy.GetString d "name")]>
                   (<["provider_key" := legacy.VString (legacy.GetString d "provider_key")]>
                      (<["organization" := legacy.VString (legacy.GetString d "organization")]>
                         (legacy.attributes d)))) |}.
Proof.
  rewrite legacy_read_by_outcome.
  destruct (lookupInLoop _ _ _ _ _ _) as [[[err|[| |first]] w1]|]; try discriminate.
  unfold legacy.readMatched, legacy.ResourceData_Set. simpl.
  destruct (setError "organization" _) eqn:Ho; destruct (setError "provider_key" _) eqn:Hk;
    destruct (setError "name" _) eqn:Hn; destruct (setError "config" _) eqn:Hc;
    simpl; try discriminate.
  intros [= <- <-]. by exists first.
Qed.

(** X17. A read without diagnostics implies that exactly one integration
    of the requested name was found, and leaves the resource holding the
    organization, provider key and name it was asked for and the
    configuration of that integration, unchanged. *)
Theorem X17_clean_read_populates (fuel : nat) (d d' : legacy.ResourceData) (w w' : World R) :
  Read fuel d w = Some ([], d', w') ->
  exists first,
    lookupInLoop client fuel (legacy.GetString d "organization") (paramsOf d)
                 (legacy.GetString d "name") w = Some (inr (Matched first), w') /\
    legacy.GetString d' "organization" = legacy.GetString d "organization" /\
    legacy.GetString d' "provider_key" = legacy.GetString d "provider_key" /\
    legacy.GetString d' "name" = legacy.GetString d "name" /\
    legacy.GetConfig d' "config" = sentry.ConfigData first.
Proof.
  intros H. apply legacy_read_clean_inv in H as (first & Hlook & _ & _ & _ & _ & ->).
  exists first. split; [exact Hlook|].
  repeat split; (apply GetString_lookup || apply GetConfig_lookup); simpl; by simplify_map_eq.
Qed.

(** X18. Reading is idempotent: after a read without diagnostics, a
    second read that finds a single integration carrying the
    configuration just stored reports no diagnostic and leaves the
    resource exactly as the first read left it. *)
Theorem X18_read_is_idempotent (fuel fuel2 : nat) (d d' : legacy.ResourceData)
        (w w1 w2 w3 : World R) (again : OrganizationIntegration) :
  Read fuel d w = Some ([], d', w1) ->
  lookupInLoop client fuel2 (legacy.GetString d "organization") (paramsOf d)
               (legacy.GetString d "name") w2 = Some (inr (Matched again), w3) ->
  sentry.ConfigData again = legacy.GetConfig d' "config" ->
  Read fuel2 d' w2 = Some ([], d', w3).
Proof.
  intros H Hagain Hsame.
  apply legacy_read_clean_inv in H as (first & _ & Ho & Hk & Hn & Hc & ->).
  set (org := legacy.GetString d "organization") in *.
  set (key := legacy.GetString d "provider_key") in *.
  set (name := legacy.GetString d "name") in *.
  set (iid := legacy.GetString d "internal_id") in *.
  set (d1 := {| legacy.Id := _; legacy.attributes := _ |}) in *.
  assert (Horg : legacy.GetString d1 "organization" = org)
    by (apply GetString_lookup; simpl; by simplify_map_eq).
  assert (Hkey : legacy.GetString d1 "provider_key" = key)
    by (apply GetString_lookup; simpl; by simplify_map_eq).
  assert (Hname : legacy.GetString d1 "name" = name)
    by (apply GetString_lookup; simpl; by simplify_map_eq).
  assert (Hiid : legacy.GetString d1 "internal_id" = iid).
  { unfold iid, legacy.GetString. simpl. by simplify_map_eq. }
  assert (Hcfg : legacy.GetConfig d1 "config" = sentry.ConfigData first)
    by (apply GetConfig_lookup; simpl; by simplify_map_eq).
  rewrite Hcfg in Hsame.
  rewrite legacy_read_by_outcome, Horg, Hkey, Hname, Hiid, Hagain.
  unfold legacy.readMatched, legacy.ResourceData_Set. simpl.
  rewrite Ho, Hk, Hn, Hsame, Hc. simpl. do 2 f_equal.
  unfold d1. f_equal. simpl.
  rewrite (insert_id _ "organization") by by simplify_map_eq.
  rewrite (insert_id _ "provider_key") by by simplify_map_eq.
  rewrite (insert_id _ "name") by by simplify_map_eq.
  rewrite (insert_id _ "config") by by simplify_map_eq.
  reflexivity.
Qed.

(** The calls of an update. *)
Lemma legacy_update_issued (fuel : nat) (d d' : legacy.ResourceData) (w w' : World R)
        (diags : Diagnostics) :
  Update fuel d w = Some (diags, d', w') ->
  exists lists,
    calls w' = calls w
               ++ CallUpdateConfig (legacy.GetString d "organization") (legacy.Id d)
                                   (legacy.GetConfig d "config")
               :: lists /\
    forallb (listCallFor (legacy.GetString d "organization")
                         (legacy.GetString d "provider_key")) lists = true.
Proof.
  unfold legacy.resourceSentryOrganizationIntegrationConfigurationUpdate, callUpdateConfig.
  destruct (OrganizationIntegrations.UpdateConfig client (remote w) _ _ _) as [[err|res] r'].
  - intros [= _ _ <-]. by exists [].
  - rewrite SetId_same.
    unfold legacy.resourceSentryOrganizationIntegrationConfigurationRead.
    destruct (listLoop _ _ _ _ _ _ _) as [[res' w1]|] eqn:Hloop; [|discriminate].
    apply listLoop_issued in Hloop as (issued & Hcalls & _ & Hall). simpl in Hcalls, Hall.
    intros Hret. assert (w' = w1) as -> by (destruct res'; by injection Hret).
    exists issued. split; [|exact Hall].
    rewrite Hcalls. by rewrite <- app_assoc.
Qed.

(** X19. An update that returns has called [UpdateConfig] once, first,
    with the identifier and the configuration held by the resource;
    every call after it is a [List] call of the re-read. *)
Theorem X19_update_calls (fuel : nat) (d d' : legacy.ResourceData) (w w' : World R)
        (diags : Diagnostics) :
  Update fuel d w = Some (diags, d', w') ->
  exists lists,
    calls w' = calls w
               ++ CallUpdateConfig (legacy.GetString d "organization") (legacy.Id d)
                                   (legacy.GetConfig d "config")
               :: lists /\
    forallb (listCallFor (legacy.GetString d "organization")
                         (legacy.GetString d "provider_key")) lists = true.
Proof. apply legacy_update_issued. Qed.

(** X20. Read then update: the identifier an update sends to the service
    after a read without diagnostics is the composite identifier the read
    has set, built from organization, provider key and [internal_id]. *)
Theorem X20_update_after_read_sends_composite_id (fuel fuel2 : nat)
        (d d1 d2 : legacy.ResourceData) (w w1 w2 : World R) (diags : Diagnostics) :
  Read fuel d w = Some ([], d1, w1) ->
  Update fuel2 d1 w1 = Some (diags, d2, w2) ->
  exists lists,
    calls w2 = calls w1
               ++ CallUpdateConfig
                    (legacy.GetString d "organization")
                    (buildThreePartID sep (legacy.GetString d "organization")
                                      (legacy.GetString d "provider_key")
                                      (legacy.GetString d "internal_id"))
                    (legacy.GetConfig d1 "config")
               :: lists.
Proof.
  intros Hread Hupdate.
  apply legacy_update_issued in Hupdate as (lists & Hcalls & _).
  exists lists. rewrite Hcalls.
  pose proof Hread as Hinv.
  apply legacy_read_clean_inv in Hinv as (first & _ & _ & _ & _ & _ & Hd1).
  assert (Hid : legacy.Id d1 = buildThreePartID sep (legacy.GetString d "organization")
                                               (legacy.GetString d "provider_key")
                                               (legacy.GetString d "internal_id"))
    by (by rewrite Hd1).
  assert (Horg : legacy.GetString d1 "organization" = legacy.GetString d "organization").
  { rewrite Hd1. apply GetString_lookup. simpl. by simplify_map_eq. }
  by rewrite Hid, Horg.
Qed.

End Legacy.

(** X21. Delete never changes an attribute; it clears the identifier and
    reports nothing when the service accepts the empty update, and
    otherwise reports the service's error and leaves the resource as it
    was. *)
Theorem X21_delete_outcome {R : Type} (client : Client R)
        (d : legacy.ResourceData) (w : World R) :
  let '(diags, d', _) :=
    legacy.resourceSentryOrganizationIntegrationConfigurationDelete client d w in
  legacy.attributes d' = legacy.attributes d /\
  match fst (OrganizationIntegrations.UpdateConfig client (remote w)
               (legacy.GetString d "organization") (legacy.Id d) ∅) with
  | inl err =>
      d' = d /\
      diags = legacy.FromErr
                (Some ("unable to delete organization integration configuration: " +:+ err))
  | inr _ => legacy.Id d' = "" /\ diags = []
  end.
Proof.
  unfold legacy.resourceSentryOrganizationIntegrationConfigurationDelete, callUpdateConfig.
  destruct (OrganizationIntegrations.UpdateConfig client (remote w) _ _ _) as [[err|res] r'];
    simpl; auto.
Qed.

(** ** Configuration of the framework resource and its declared names *)

Lemma HasError_AddError (ds : Diagnostics) (summary detail : string) :
  HasError (AddError ds summary detail) = true.
Proof.
  unfold HasError, AddError. rewrite existsb_app. simpl. by rewrite orb_true_r.
Qed.

(** X22. [Configure] reports an error exactly when it is handed provider
    data of a foreign type, and then keeps the client it had; provider
    data that is missing changes nothing, and a client replaces the one
    installed. *)
Theorem X22_configure_outcome {R : Type}
        (r : provider.organizationIntegrationConfigurationResource (R := R))
        (providerData : provider.ProviderData) (diagnostics : Diagnostics) :
  HasError diagnostics = false ->
  let '(r', diagnostics') := provider.Configure r providerData diagnostics in
  (HasError diagnostics' = true <-> exists typeName, providerData = provider.ProviderOther typeName)
  /\ provider.client r' = match providerData with
                          | provider.ProviderClient c => Some c
                          | _ => provider.client r
                          end.
Proof.
  intros Hok. destruct providerData as [|c|typeName]; simpl.
  - split; [|reflexivity]. rewrite Hok. split; [discriminate | intros [? [=]]].
  - split; [|reflexivity]. rewrite Hok. split; [discriminate | intros [? [=]]].
  - split; [|reflexivity]. rewrite HasError_AddError. split; [by exists typeName | done].
Qed.

(** X23. The model struct and the schema do not name the same
    attributes: the struct has a field tagged [configData], which the
    schema does not declare, and the schema declares [config], for which
    the struct has no field; on all other names they agree. *)
Theorem X23_model_and_schema_names_differ :
  forall key,
    (In key provider.modelTags <-> In key provider.schemaAttributes)
    <-> (key <> "configData" /\ key <> "config").
Proof.
  intros key. unfold provider.modelTags, provider.schemaAttributes. simpl.
  split.
  - intros [H1 H2]. split; intros ->.
    + destruct H1 as [|[|[|[|[|[|[]]]]]]]; try discriminate. tauto.
    + destruct H2 as [|[|[|[|[|[|[]]]]]]]; try discriminate. tauto.
  - intros [Hn1 Hn2]. split; intros H;
      repeat (destruct H as [<-|H]; [tauto|]); try (by destruct H); congruence.
Qed.

(** ** The properties above on the simulated service *)

Lemma X5_read_witness :
  exists added,
    AddError [] "Client Error"
             "Unable to read organization integrations, got error: 502 Bad Gateway"
    = [] ++ fst (Sim.State_Get Sim.priorState) ++ added /\
    length added <= 1 /\
    forallb readDiagnostic added = true.
Proof.
  exact (X5_read_adds_at_most_one_error Sim.client Sim.State_Get Sim.json_Marshal 2
           Sim.readRequest (Sim.readResponse [])
           {| provider.ReadResponse_State := Sim.priorState;
              provider.ReadResponse_Diagnostics :=
                AddError [] "Client Error"
                  "Unable to read organization integrations, got error: 502 Bad Gateway" |}
           (Sim.start Sim.brokenSecondPage) _ eq_refl).
Defined.

Lemma X6_read_witness :
  Sim.Read 0 Sim.readRequest
           (Sim.readResponse (AddError [] "Earlier" "reported before the read"))
           (Sim.start Sim.twoPages) =
  Some (Sim.readResponse (AddError [] "Earlier" "reported before the read"),
        Sim.start Sim.twoPages).
Proof.
  exact (X6_read_stops_on_state_error Sim.client Sim.State_Get Sim.json_Marshal 0
           Sim.readRequest
           (Sim.readResponse (AddError [] "Earlier" "reported before the read"))
           (Sim.start Sim.twoPages) eq_refl).
Defined.

Lemma X7_read_witness :
  provider.ReadResponse_Diagnostics (Sim.readResponse []) = [] ++ []
  <->
  exists single text,
    lookupInLoop Sim.client 1 "acme" Sim.slackParams "X" (Sim.start Sim.singleRemote)
    = Some (inr (Matched single), mkWorld Sim.singleRemote [CallList "acme" Sim.slackParams])
    /\ Sim.json_Marshal (sentry.ConfigData single) = inr text.
Proof.
  exact (X7_read_succeeds_iff_single_match Sim.client Sim.State_Get Sim.json_Marshal 1
           Sim.readRequest (Sim.readResponse []) (Sim.readResponse [])
           (Sim.start Sim.singleRemote)
           (mkWorld Sim.singleRemote [CallList "acme" Sim.slackParams]) eq_refl eq_refl).
Defined.

Lemma X9_create_witness :
  fst (Sim.Create (Sim.createRequest (types.StringValue "42") "{b:3,c:4}")
                  Sim.createResponse (Sim.start Sim.singleRemote)) =
  {| provider.CreateResponse_State :=
       Sim.model (types.StringValue "42") false "{b:3,c:4}";
     provider.CreateResponse_Diagnostics := [] |}.
Proof.
  exact (X9_create_stores_the_plan Sim.client Sim.Plan_Get Sim.State_Set Sim.json_Unmarshal
           (Sim.createRequest (types.StringValue "42") "{b:3,c:4}")
           Sim.createResponse (Sim.start Sim.singleRemote)
           [] (Sim.model (types.StringValue "42") false "{b:3,c:4}") Sim.desiredDocument
           _ _ eq_refl eq_refl eq_refl eq_refl).
Defined.

Lemma X10_create_witness :
  provider.CreateResponse_State
    (fst (Sim.Create (Sim.createRequest (types.StringValue "42") "not a document")
                     Sim.createResponse (Sim.start Sim.singleRemote)))
  = provider.CreateResponse_State Sim.createResponse.
Proof.
  exact (X10_create_failure_keeps_state Sim.client Sim.Plan_Get Sim.State_Set
           Sim.json_Unmarshal
           (Sim.createRequest (types.StringValue "42") "not a document")
           Sim.createResponse (Sim.start Sim.singleRemote) eq_refl).
Defined.

Lemma X11_create_witness :
  calls (snd (Sim.Create (Sim.createRequest types.StringUnknown "{b:3,c:4}")
                         Sim.createResponse (Sim.start Sim.singleRemote))) =
  [] ++ [CallUpdateConfig "acme" "" Sim.desiredDocument].
Proof.
  exact (X11_create_unknown_id_sends_empty Sim.client Sim.Plan_Get Sim.State_Set
           Sim.json_Unmarshal
           (Sim.createRequest types.StringUnknown "{b:3,c:4}")
           Sim.createResponse (Sim.start Sim.singleRemote)
           [] (Sim.model types.StringUnknown false "{b:3,c:4}") Sim.desiredDocument
           eq_refl eq_refl eq_refl (or_introl eq_refl)).
Defined.

Lemma X12_read_witness :
  Sim.legacyRead 2 (Sim.declared "Q") (Sim.start Sim.twoPages) =
  Some (legacy.Errorf Sim.Quote
          "no matching organization integration configurations found with name " "Q",
        Sim.declared "Q",
        mkWorld Sim.twoPages [CallList "acme" Sim.slackParams;
                              CallList "acme" (setCursor Sim.slackParams "c2")]).
Proof.
  exact (X12_read_without_single_match_keeps_resource Sim.client "/" Sim.Quote
           Sim.ListFormatFunc Sim.setError 2 (Sim.declared "Q") (Sim.start Sim.twoPages)
           _ NotFound eq_refl).
Defined.

Lemma X13_read_witness :
  exists diags d',
    Sim.legacyRead 1 (Sim.declared "X") (Sim.start Sim.singleRemote)
    = Some (diags, d', mkWorld Sim.singleRemote [CallList "acme" Sim.slackParams]) /\
    legacy.Id d' = buildThreePartID "/" "acme" "slack" "".
Proof.
  exact (X13_read_identifier_from_resource Sim.client "/" Sim.Quote Sim.ListFormatFunc
           Sim.setError 1 (Sim.declared "X") (Sim.start Sim.singleRemote) _
           (Sim.integration "42" "X" Sim.remoteDocument) eq_refl).
Defined.

Lemma X14_read_witness :
  legacy.attributes Sim.afterRead !! "internal_id"
  = legacy.attributes (Sim.declared "X") !! "internal_id".
Proof.
  exact (X14_read_never_assigns_internal_id Sim.client "/" Sim.Quote Sim.ListFormatFunc
           Sim.setError 1 (Sim.declared "X") Sim.afterRead (Sim.start Sim.singleRemote)
           (mkWorld Sim.singleRemote [CallList "acme" Sim.slackParams]) [] eq_refl).
Defined.

Lemma X15_read_witness :
  (exists d', Sim.legacyRead 1 (Sim.declared "X") (Sim.start Sim.singleRemote)
              = Some ([], d', mkWorld Sim.singleRemote [CallList "acme" Sim.slackParams]))
  <->
  Sim.setError "organization" (legacy.VString "acme") = None /\
  Sim.setError "provider_key" (legacy.VString "slack") = None /\
  Sim.setError "name" (legacy.VString "X") = None /\
  Sim.setError "config" (legacy.VMap Sim.remoteDocument) = None.
Proof.
  exact (X15_read_clean_iff_writes_accepted Sim.client "/" Sim.Quote Sim.ListFormatFunc
           Sim.setError 1 (Sim.declared "X") (Sim.start Sim.singleRemote) _
           (Sim.integration "42" "X" Sim.remoteDocument) eq_refl).
Defined.

Lemma schemaSetError_accepts (key : string) (value : legacy.Value) :
  legacy.fitsSchema key value = true -> Sim.schemaSetError key value = None.
Proof. unfold Sim.schemaSetError. by intros ->. Defined.

Lemma X16_read_witness :
  exists d',
    legacy.resourceSentryOrganizationIntegrationConfigurationRead
      Sim.client "/" Sim.Quote Sim.ListFormatFunc Sim.schemaSetError
      1 (Sim.declared "X") (Sim.start Sim.singleRemote)
    = Some ([], d', mkWorld Sim.singleRemote [CallList "acme" Sim.slackParams]).
Proof.
  exact (X16_read_writes_fit_schema Sim.client "/" Sim.Quote Sim.ListFormatFunc
           Sim.schemaSetError 1 (Sim.declared "X") (Sim.start Sim.singleRemote) _
           (Sim.integration "42" "X" Sim.remoteDocument) schemaSetError_accepts eq_refl).
Defined.

Lemma X17_read_witness :
  exists first,
    lookupInLoop Sim.client 1 "acme" Sim.slackParams "X" (Sim.start Sim.singleRemote)
    = Some (inr (Matched first), mkWorld Sim.singleRemote [CallList "acme" Sim.slackParams]) /\
    legacy.GetString Sim.afterRead "organization" = "acme" /\
    legacy.GetString Sim.afterRead "provider_key" = "slack" /\
    legacy.GetString Sim.afterRead "name" = "X" /\
    legacy.GetConfig Sim.afterRead "config" = sentry.ConfigData first.
Proof.
  exact (X17_clean_read_populates Sim.client "/" Sim.Quote Sim.ListFormatFunc Sim.setError
           1 (Sim.declared "X") Sim.afterRead (Sim.start Sim.singleRemote)
           (mkWorld Sim.singleRemote [CallList "acme" Sim.slackParams]) eq_refl).
Defined.

Lemma X18_read_witness :
  Sim.legacyRead 3 Sim.afterRead (mkWorld Sim.singleRemote [CallList "acme" Sim.slackParams]) =
  Some ([], Sim.afterRead,
        mkWorld Sim.singleRemote [CallList "acme" Sim.slackParams;
                                  CallList "acme" Sim.slackParams]).
Proof.
  exact (X18_read_is_idempotent Sim.client "/" Sim.Quote Sim.ListFormatFunc Sim.setError
           1 3 (Sim.declared "X") Sim.afterRead (Sim.start Sim.singleRemote)
           (mkWorld Sim.singleRemote [CallList "acme" Sim.slackParams])
           (mkWorld Sim.singleRemote [CallList "acme" Sim.slackParams])
           (mkWorld Sim.singleRemote [CallList "acme" Sim.slackParams;
                                      CallList "acme" Sim.slackParams])
           (Sim.integration "42" "X" Sim.remoteDocument) eq_refl eq_refl eq_refl).
Defined.

Lemma X19_update_witness :
  exists lists,
    [CallUpdateConfig "acme" "42" Sim.desiredDocument; CallList "acme" Sim.slackParams]
    = [] ++ CallUpdateConfig "acme" "42" Sim.desiredDocument :: lists /\
    forallb (listCallFor "acme" "slack") lists = true.
Proof.
  refine (X19_update_calls Sim.client "/" Sim.Quote Sim.ListFormatFunc Sim.setError
            1 Sim.imported _ (Sim.start Sim.singleRemote)
            (mkWorld _ [CallUpdateConfig "acme" "42" Sim.desiredDocument;
                        CallList "acme" Sim.slackParams]) _ _).
  reflexivity.
Defined.

Lemma X20_update_witness :
  exists lists,
    calls (mkWorld Sim.singleRemote
             [CallList "acme" Sim.slackParams;
              CallUpdateConfig "acme" "acme/slack/" Sim.remoteDocument])
    = [CallList "acme" Sim.slackParams]
      ++ CallUpdateConfig "acme" (buildThreePartID "/" "acme" "slack" "")
                          (legacy.GetConfig Sim.afterRead "config")
      :: lists.
Proof.
  refine (X20_update_after_read_sends_composite_id Sim.client "/" Sim.Quote
            Sim.ListFormatFunc Sim.setError 1 1 (Sim.declared "X") Sim.afterRead _
            (Sim.start Sim.singleRemote)
            (mkWorld Sim.singleRemote [CallList "acme" Sim.slackParams])
            (mkWorld Sim.singleRemote
               [CallList "acme" Sim.slackParams;
                CallUpdateConfig "acme" "acme/slack/" Sim.remoteDocument]) _ eq_refl _).
  reflexivity.
Defined.

Lemma X22_configure_witness :
  (HasError (AddError [] "Unexpected Resource Configure Type"
               ("Expected *sentry.Client, got: " +:+ "string" +:+
                ". Please report this issue to the provider developers.")) = true
   <-> exists typeName,
       provider.ProviderOther (R := Sim.Remote) "string" = provider.ProviderOther typeName)
  /\ provider.client (provider.NewOrganizationIntegrationConfigurationResource (R := Sim.Remote))
     = None.
Proof.
  exact (X22_configure_outcome provider.NewOrganizationIntegrationConfigurationResource
           (provider.ProviderOther "string") [] eq_refl).
Defined.
